(** * Sentiment analyzer of nlp.js: a shallow embedding and its properties

    Source: [src/lib/sentiment/sentiment-analyzer.js], class
    [SentimentAnalyzer] with its constructor and the methods
    [loadVocabulary], [getSentiment], [addVocabulary] and [normalize].

    Modelling choices.
    - A JS number is a [number]: a real, or one of the special values NaN,
      +Infinity and -Infinity.  Arithmetic on finite values is exact real
      arithmetic (no rounding, no overflow) and zero carries no sign.  The
      special values appear exactly where the JS operators produce them
      from such operands: [0 / 0], [x / 0], the square root of a negative
      number, arithmetic on [undefined].
    - [normalize] is embedded a second time, in [Binary64], on the binary64
      numbers that the code computes with; what depends on rounding or
      overflow is stated there.
    - A lexicon weight is a finite number, so a real.
    - A JS object used as a dictionary is the list of its own properties in
      the order in which [Object.keys] enumerates them: the array-index
      keys in ascending order, then the other keys in the order of their
      creation.  [Obj.get] reads an own property.  In [getSentiment] it
      stands for [o[k]], which agrees with it unless [o] does not own [k]
      and [k] is one of the names that every object inherits
      ([inheritedNames]); the statements that depend on it carry that
      hypothesis.
    - A vocabulary file holds an object whose values are numbers, or cannot
      be read.
    - Strings are sequences of 8-bit characters; [toLowerCase] is a
      parameter of the development.
    - [undefined] is [None].
    - [this] is threaded through a state monad that can also throw. *)

From Stdlib Require Import PrimFloat.
From Stdlib Require FloatOps SpecFloat.
From Stdlib Require Import Reals Lra Lia List String Ascii ZArith NArith Bool.
Import ListNotations.

Local Open Scope string_scope.

(* ------------------------------------------------------------------ *)
(** ** JS numbers *)

Inductive number : Type :=
| Num (r : R)
| NaN
| PosInf
| NegInf.

Module Number.

Definition infinity (negative : bool) : number :=
  if negative then NegInf else PosInf.

Definition is_neg (a : number) : bool :=
  match a with
  | Num r => if Rlt_dec r 0 then true else false
  | NegInf => true
  | _ => false
  end.

Definition is_zero (a : number) : bool :=
  match a with
  | Num r => if Req_dec_T r 0 then true else false
  | _ => false
  end.

(** [a + b] *)
Definition add (a b : number) : number :=
  match a, b with
  | NaN, _ | _, NaN => NaN
  | Num x, Num y => Num (x + y)
  | PosInf, NegInf | NegInf, PosInf => NaN
  | PosInf, _ | _, PosInf => PosInf
  | NegInf, _ | _, NegInf => NegInf
  end.

(** [a * b] *)
Definition mul (a b : number) : number :=
  match a, b with
  | NaN, _ | _, NaN => NaN
  | Num x, Num y => Num (x * y)
  | _, _ =>
      if is_zero a || is_zero b then NaN
      else infinity (xorb (is_neg a) (is_neg b))
  end.

(** [a / b] *)
Definition div (a b : number) : number :=
  match a, b with
  | NaN, _ | _, NaN => NaN
  | Num x, Num y =>
      if Req_dec_T y 0
      then (if Req_dec_T x 0 then NaN else infinity (is_neg a))
      else Num (x / y)
  | Num _, _ => Num 0
  | _, Num _ => infinity (xorb (is_neg a) (is_neg b))
  | _, _ => NaN
  end.

(** [Math.sqrt(a)] *)
Definition sqrt (a : number) : number :=
  match a with
  | Num x => if Rlt_dec x 0 then NaN else Num (R_sqrt.sqrt x)
  | PosInf => PosInf
  | _ => NaN
  end.

(** [a < b]; every comparison with NaN is false. *)
Definition lt (a b : number) : bool :=
  match a, b with
  | NaN, _ | _, NaN => false
  | Num x, Num y => if Rlt_dec x y then true else false
  | NegInf, NegInf => false
  | NegInf, _ => true
  | _, NegInf => false
  | PosInf, _ => false
  | _, PosInf => true
  end.

(** [a > b] *)
Definition gt (a b : number) : bool := lt b a.

(** ToNumber of a value that is a number or [undefined]. *)
Definition ToNumber (v : option number) : number :=
  match v with
  | Some n => n
  | None => NaN
  end.

(** Reading a property of a number primitive, as in [n[0]]: a number has
    no own indexed properties, the access gives [undefined]. *)
Definition index (n : number) (i : nat) : option number := None.

(** [-1 <= a <= 1], false for NaN and the infinities. *)
Definition in_unit_range (a : number) : Prop :=
  match a with
  | Num r => (-1 <= r <= 1)%R
  | _ => False
  end.

End Number.

(* ------------------------------------------------------------------ *)
(** ** normalize *)

(** [normalize(score, alpha = 15)] in exact arithmetic: the default
    applies when the argument is [undefined]. *)
Definition normalize (score : number) (alpha : option number) : number :=
  let alpha := match alpha with Some a => a | None => Num 15 end in
  let normScore :=
    Number.div score (Number.sqrt (Number.add (Number.mul score score) alpha)) in
  if Number.lt normScore (Num (-1)) then Num (-1)
  else if Number.gt normScore (Num 1) then Num 1
  else normScore.

(** [normalize] on the binary64 numbers of the code: [*], [+], [/] and
    [Math.sqrt] round to nearest, [<] and [>] are false on NaN. *)
Module Binary64.

Definition normalize (score : float) (alpha : option float) : float :=
  let alpha := match alpha with Some a => a | None => 15%float end in
  let normScore :=
    PrimFloat.div score
      (PrimFloat.sqrt (PrimFloat.add (PrimFloat.mul score score) alpha)) in
  if PrimFloat.ltb normScore (-1)%float then (-1)%float
  else if PrimFloat.ltb 1%float normScore then 1%float
  else normScore.

(** The binary64 numbers that the literals [1e155] and [1e308] denote. *)
Definition ten_to_155 : float := 0x1.dd55745cbb7edp+514%float.
Definition ten_to_308 : float := 0x1.1ccf385ebc8a0p+1023%float.

(** The real number that a binary64 number is; NaN and the infinities are
    none. *)
Definition toReal (x : float) : option R :=
  match FloatOps.Prim2SF x with
  | SpecFloat.S754_zero _ => Some 0%R
  | SpecFloat.S754_finite negative m e =>
      Some ((if negative then -1 else 1) * IZR (Zpos m) * powerRZ 2 e)%R
  | SpecFloat.S754_infinity _ => None
  | SpecFloat.S754_nan => None
  end.

End Binary64.

(* ------------------------------------------------------------------ *)
(** ** Arrays of strings and dictionaries *)

(** [array.indexOf(x)]: the index of the first element strictly equal to
    [x], or -1. *)
Fixpoint indexOf_from (l : list string) (x : string) (i : Z) : Z :=
  match l with
  | [] => (-1)%Z
  | y :: l' => if String.eqb y x then i else indexOf_from l' x (i + 1)%Z
  end.

Definition indexOf (l : list string) (x : string) : Z := indexOf_from l x 0%Z.

(** [s[0]]: the one-character string at index 0, [undefined] for the empty
    string. *)
Definition charAt0 (s : string) : option string :=
  match s with
  | EmptyString => None
  | String c _ => Some (String c EmptyString)
  end.

(** A value used as a property key is converted to a string; [undefined]
    becomes the key ["undefined"]. *)
Definition PropertyKey (v : option string) : string :=
  match v with
  | Some s => s
  | None => "undefined"
  end.

(** A dictionary object: its own properties in enumeration order. *)
Definition jsobject : Type := list (string * R).

(** The names that an object inherits from [Object.prototype]. *)
Definition inheritedNames : list string :=
  ["constructor"; "__defineGetter__"; "__defineSetter__"; "hasOwnProperty";
   "__lookupGetter__"; "__lookupSetter__"; "isPrototypeOf";
   "propertyIsEnumerable"; "toString"; "valueOf"; "__proto__";
   "toLocaleString"].

Module Obj.

(** The own property [k] of [o]: what [o[k]] reads when [o] owns [k], and
    [undefined] when no object has the name [k]. *)
Fixpoint get (o : jsobject) (k : string) : option R :=
  match o with
  | [] => None
  | (k', v) :: o' => if String.eqb k' k then Some v else get o' k
  end.

Definition isDigit (c : ascii) : bool :=
  let n := nat_of_ascii c in ((48 <=? n) && (n <=? 57))%nat.

(** The number that a string of decimal digits writes. *)
Fixpoint digitsValue (s : string) (acc : N) : option N :=
  match s with
  | EmptyString => Some acc
  | String c s' =>
      if isDigit c
      then digitsValue s' (10 * acc + (N_of_ascii c - 48))%N
      else None
  end.

(** An array index: a canonical numeric string (no sign, no leading zero)
    below 2^32 - 1. *)
Definition arrayIndex (s : string) : option N :=
  match s with
  | EmptyString => None
  | String c rest =>
      if Ascii.eqb c "0" && negb (String.eqb rest EmptyString) then None
      else
        match digitsValue s 0%N with
        | Some n => if (n <? 4294967295)%N then Some n else None
        | None => None
        end
  end.

(** Writing the own property [k] that [o] has: the key keeps its place. *)
Fixpoint replace (o : jsobject) (k : string) (v : R) : jsobject :=
  match o with
  | [] => [(k, v)]
  | (k', v') :: o' =>
      if String.eqb k' k then (k', v) :: o' else (k', v') :: replace o' k v
  end.

(** Creating the array index [k], of value [n]: it comes before the larger
    array indices and before every other key. *)
Fixpoint insertIndex (o : jsobject) (k : string) (n : N) (v : R)
  : jsobject :=
  match o with
  | [] => [(k, v)]
  | (k', v') :: o' =>
      match arrayIndex k' with
      | Some n' =>
          if (n' <? n)%N then (k', v') :: insertIndex o' k n v
          else (k, v) :: o
      | None => (k, v) :: o
      end
  end.

(** [o[k] = v] for a number [v].  A key that [o] owns is written in
    place.  Otherwise the key is created, last or, for an array index, in
    its place among the array indices; but assigning a number to
    [__proto__] calls the setter that [o] inherits, which ignores it. *)
Definition set (o : jsobject) (k : string) (v : R) : jsobject :=
  match get o k with
  | Some _ => replace o k v
  | None =>
      if String.eqb k "__proto__" then o
      else
        match arrayIndex k with
        | Some n => insertIndex o k n v
        | None => (o ++ [(k, v)])%list
        end
  end.

(** [Object.keys(o)] *)
Definition keys (o : jsobject) : list string := map fst o.

End Obj.

(* ------------------------------------------------------------------ *)
(** ** The analyzer object *)

(** The stemmer and tokenizer capabilities of [NlpUtil]. *)
Record Stemmer : Type := { tokenizeAndStem : string -> list string }.
Record Tokenizer : Type := { tokenize : string -> list string }.

Module Settings.
Record t : Type := {
  language : string;
  type : string;
  useStemmer : bool;
  tokenizer : Tokenizer
}.
End Settings.

Record SentimentAnalyzer : Type := {
  settings : Settings.t;
  dict : option jsobject;
  stemmer : option Stemmer;
  vocabularyFileName : string;
  negationFileName : string;
  negationPunctuationFileName : string;
  vocabulary : option jsobject;
  vocabularyStem : option jsobject;
  negations : list string;
  negationPunctuations : list string;
  (** the static [SentimentAnalyzer.loadedFiles]: the names flagged [true] *)
  loadedFiles : list string
}.

Definition set_vocabularyFileName (x : string) (a : SentimentAnalyzer) :=
  {| settings := settings a; dict := dict a; stemmer := stemmer a;
     vocabularyFileName := x;
     negationFileName := negationFileName a;
     negationPunctuationFileName := negationPunctuationFileName a;
     vocabulary := vocabulary a; vocabularyStem := vocabularyStem a;
     negations := negations a;
     negationPunctuations := negationPunctuations a;
     loadedFiles := loadedFiles a |}.

Definition set_negationFileName (x : string) (a : SentimentAnalyzer) :=
  {| settings := settings a; dict := dict a; stemmer := stemmer a;
     vocabularyFileName := vocabularyFileName a;
     negationFileName := x;
     negationPunctuationFileName := negationPunctuationFileName a;
     vocabulary := vocabulary a; vocabularyStem := vocabularyStem a;
     negations := negations a;
     negationPunctuations := negationPunctuations a;
     loadedFiles := loadedFiles a |}.

Definition set_negationPunctuationFileName (x : string) (a : SentimentAnalyzer) :=
  {| settings := settings a; dict := dict a; stemmer := stemmer a;
     vocabularyFileName := vocabularyFileName a;
     negationFileName := negationFileName a;
     negationPunctuationFileName := x;
     vocabulary := vocabulary a; vocabularyStem := vocabularyStem a;
     negations := negations a;
     negationPunctuations := negationPunctuations a;
     loadedFiles := loadedFiles a |}.

Definition set_vocabulary (x : option jsobject) (a : SentimentAnalyzer) :=
  {| settings := settings a; dict := dict a; stemmer := stemmer a;
     vocabularyFileName := vocabularyFileName a;
     negationFileName := negationFileName a;
     negationPunctuationFileName := negationPunctuationFileName a;
     vocabulary := x; vocabularyStem := vocabularyStem a;
     negations := negations a;
     negationPunctuations := negationPunctuations a;
     loadedFiles := loadedFiles a |}.

Definition set_vocabularyStem (x : option jsobject) (a : SentimentAnalyzer) :=
  {| settings := settings a; dict := dict a; stemmer := stemmer a;
     vocabularyFileName := vocabularyFileName a;
     negationFileName := negationFileName a;
     negationPunctuationFileName := negationPunctuationFileName a;
     vocabulary := vocabulary a; vocabularyStem := x;
     negations := negations a;
     negationPunctuations := negationPunctuations a;
     loadedFiles := loadedFiles a |}.

Definition set_negations (x : list string) (a : SentimentAnalyzer) :=
  {| settings := settings a; dict := dict a; stemmer := stemmer a;
     vocabularyFileName := vocabularyFileName a;
     negationFileName := negationFileName a;
     negationPunctuationFileName := negationPunctuationFileName a;
     vocabulary := vocabulary a; vocabularyStem := vocabularyStem a;
     negations := x;
     negationPunctuations := negationPunctuations a;
     loadedFiles := loadedFiles a |}.

Definition set_negationPunctuations (x : list string) (a : SentimentAnalyzer) :=
  {| settings := settings a; dict := dict a; stemmer := stemmer a;
     vocabularyFileName := vocabularyFileName a;
     negationFileName := negationFileName a;
     negationPunctuationFileName := negationPunctuationFileName a;
     vocabulary := vocabulary a; vocabularyStem := vocabularyStem a;
     negations := negations a;
     negationPunctuations := x;
     loadedFiles := loadedFiles a |}.

Definition set_loadedFiles (x : list string) (a : SentimentAnalyzer) :=
  {| settings := settings a; dict := dict a; stemmer := stemmer a;
     vocabularyFileName := vocabularyFileName a;
     negationFileName := negationFileName a;
     negationPunctuationFileName := negationPunctuationFileName a;
     vocabulary := vocabulary a; vocabularyStem := vocabularyStem a;
     negations := negations a;
     negationPunctuations := negationPunctuations a;
     loadedFiles := x |}.

(* ------------------------------------------------------------------ *)
(** ** Methods run on [this]: state and exceptions *)

Inductive completion (A : Type) : Type :=
| Normal (a : A)
| Throw (error : string).
Arguments Normal {A} a.
Arguments Throw {A} error.

Definition M (A : Type) : Type :=
  SentimentAnalyzer -> completion A * SentimentAnalyzer.

Definition ret {A} (a : A) : M A := fun this => (Normal a, this).

Definition bind {A B} (m : M A) (k : A -> M B) : M B :=
  fun this =>
    match m this with
    | (Normal a, this') => k a this'
    | (Throw e, this') => (Throw e, this')
    end.

Notation "x <- m ;; k" := (bind m (fun x => k))
  (at level 61, m at next level, right associativity).
Notation "m ;; k" := (bind m (fun _ => k))
  (at level 61, right associativity).

(** Read the receiver. *)
Definition self : M SentimentAnalyzer := fun this => (Normal this, this).

(** Assign to a field of the receiver. *)
Definition assign (f : SentimentAnalyzer -> SentimentAnalyzer) : M unit :=
  fun this => (Normal tt, f this).

Definition throw {A} (e : string) : M A := fun this => (Throw e, this).

(** Use [o] as an object: reading a property of [undefined] throws. *)
Definition member {A} (o : option A) : M A :=
  match o with
  | Some a => ret a
  | None => throw "TypeError"
  end.

(** [array.forEach(callback)], the callback updating the variables [vars]
    that it closes over. *)
Fixpoint forEach {A V} (l : list A) (callback : A -> V -> M V) (vars : V)
  : M V :=
  match l with
  | [] => ret vars
  | x :: l' => vars' <- callback x vars ;; forEach l' callback vars'
  end.

(* ------------------------------------------------------------------ *)
(** ** The methods of [SentimentAnalyzer] *)

Module WordScore.
Record t : Type := {
  word : option string;
  score : number
}.
End WordScore.

(** The object that [getSentiment] returns.  [range] and [wordScores] are
    absent from the object returned without a vocabulary. *)
Module Result.
Record t : Type := {
  score : R;
  numWords : nat;
  numHits : nat;
  range : option number;
  comparative : number;
  type : string;
  language : string;
  wordScores : option (list WordScore.t)
}.
End Result.

(** The variables of [getSentiment] that the [forEach] callback updates. *)
Module Scan.
Record t : Type := {
  score : R;
  negator : R;
  nrHits : nat;
  wordScores : list WordScore.t
}.

(** [let score = 0; let negator = 1; let nrHits = 0; const wordScores = []] *)
Definition init : t :=
  {| score := 0; negator := 1; nrHits := 0; wordScores := [] |}.
End Scan.

(** The argument of [getSentiment]: a string, or an array of tokens. *)
Inductive Utterance : Type :=
| Text (s : string)
| Tokens (words : list string).

Section Methods.

(** [String.prototype.toLowerCase] of the host. *)
Variable toLowerCase : string -> string.

(** [JSON.parse(fs.readFileSync(path.resolve(__dirname, name)))]: [None]
    when it throws, [Some o] when the file holds the object [o], whose
    values are numbers. *)
Variable readVocabulary : string -> option jsobject.

(** [require(name).words] and [require(name).punctuation]: [None] when the
    [require] throws or the property is falsy. *)
Variable requireWords : string -> option (list string).
Variable requirePunctuation : string -> option (list string).

(** The callback of [Object.keys(this.dict).forEach] in [addVocabulary]:
    [this.vocabulary[key] = this.dict[key]]. *)
Definition addVocabularyKey (key : string) (_ : unit) : M unit :=
  this <- self ;;
  vocabulary <- member (vocabulary this) ;;
  d <- member (dict this) ;;
  match Obj.get d key with
  | Some weight =>
      assign (set_vocabulary (Some (Obj.set vocabulary key weight)))
  | None => ret tt (* [key] is an own key of [dict] *)
  end.

(** [addVocabulary()] *)
Definition addVocabulary : M unit :=
  this <- self ;;
  match dict this with
  | Some d => forEach (Obj.keys d) addVocabularyKey tt
  | None => ret tt
  end.

(** The callback of [Object.keys(this.vocabulary).forEach] in
    [loadVocabulary]. *)
Definition stemWord (word : string) (_ : unit) : M unit :=
  this <- self ;;
  stemmer <- member (stemmer this) ;;
  let tokens := tokenizeAndStem stemmer word in
  if (List.length tokens =? 1)%nat then
    vocabularyStem <- member (vocabularyStem this) ;;
    vocabulary <- member (vocabulary this) ;;
    match Obj.get vocabulary word with
    | Some weight =>
        assign (set_vocabularyStem
                  (Some (Obj.set vocabularyStem
                           (PropertyKey (nth_error tokens 0)) weight)))
    | None => ret tt (* [word] is an own key of [vocabulary] *)
    end
  else ret tt.

(** [loadVocabulary()] *)
Definition loadVocabulary : M unit :=
  this <- self ;;
  let language := Settings.language (settings this) in
  let type := Settings.type (settings this) in
  assign (set_vocabularyFileName
            ("./languages/" ++ language ++ "/" ++ type ++ "_" ++ language
               ++ ".json")) ;;
  assign (set_negationFileName
            ("./languages/" ++ language ++ "/negations_" ++ language
               ++ ".json")) ;;
  assign (set_negationPunctuationFileName
            ("./languages/" ++ language ++ "/negationPunctuations_"
               ++ language ++ ".json")) ;;
  this <- self ;;
  assign (set_vocabulary (readVocabulary (vocabularyFileName this))) ;;
  this <- self ;;
  match vocabulary this with
  | Some _ =>
      match dict this with
      | Some _ => addVocabulary
      | None => ret tt
      end ;;
      assign (set_vocabularyStem (Some [])) ;;
      this <- self ;;
      match stemmer this with
      | Some _ =>
          vocabulary <- member (vocabulary this) ;;
          forEach (Obj.keys vocabulary) stemWord tt
      | None => ret tt
      end ;;
      this <- self ;;
      match vocabulary this with
      | Some _ =>
          if negb (existsb (String.eqb (vocabularyFileName this))
                     (loadedFiles this))
          then assign (set_loadedFiles
                         (loadedFiles this ++ [vocabularyFileName this])%list)
          else ret tt
      | None => ret tt
      end
  | None => ret tt
  end ;;
  this <- self ;;
  assign (set_negations
            match requireWords (negationFileName this) with
            | Some words => words
            | None => []
            end) ;;
  this <- self ;;
  assign (set_negationPunctuations
            match requirePunctuation (negationPunctuationFileName this) with
            | Some punctuation => punctuation
            | None => []
            end).

(** The callback of [words.forEach] in [getSentiment]. *)
Definition scoreToken (token : string) (vars : Scan.t) : M Scan.t :=
  let score := Scan.score vars in
  let negator := Scan.negator vars in
  let nrHits := Scan.nrHits vars in
  let wordScores := Scan.wordScores vars in
  this <- self ;;
  let lowerCased := toLowerCase token in
  if negb (indexOf (negations this) lowerCased =? -1)%Z then
    ret {| Scan.score := score; Scan.negator := -1;
           Scan.nrHits := nrHits + 1; Scan.wordScores := wordScores |}
  else if negb (indexOf (negationPunctuations this) lowerCased =? -1)%Z then
    ret {| Scan.score := score; Scan.negator := 1;
           Scan.nrHits := nrHits; Scan.wordScores := wordScores |}
  else
    vocabulary <- member (vocabulary this) ;;
    match Obj.get vocabulary lowerCased with
    | Some weight =>
        let temp := (negator * weight)%R in
        ret {| Scan.score := score + temp; Scan.negator := negator;
               Scan.nrHits := nrHits + 1;
               Scan.wordScores :=
                 (wordScores ++
                  [{| WordScore.word := Some lowerCased;
                      WordScore.score := Num (negator * weight) |}])%list |}
    | None =>
        match stemmer this with
        | Some stemmer =>
            let tokens := tokenizeAndStem stemmer lowerCased in
            match Obj.get vocabulary (PropertyKey (charAt0 token)) with
            | Some weight0 =>
                let temp := (negator * weight0)%R in
                ret {| Scan.score := score + temp; Scan.negator := negator;
                       Scan.nrHits := nrHits + 1;
                       Scan.wordScores :=
                         (wordScores ++
                          [{| WordScore.word := charAt0 token;
                              WordScore.score :=
                                Number.mul (Num negator)
                                  (Number.ToNumber
                                     (option_map Num
                                        (Obj.get vocabulary lowerCased)))
                            |}])%list |}
            | None =>
                if (List.length tokens =? 1)%nat
                   && Number.lt
                        (Number.ToNumber
                           (Number.index (Num (INR (List.length tokens))) 0))
                        (Num 2)
                then
                  vocabularyStem <- member (vocabularyStem this) ;;
                  match Obj.get vocabularyStem
                          (PropertyKey (nth_error tokens 0)) with
                  | Some weightStem =>
                      let temp := (negator * weightStem)%R in
                      ret {| Scan.score := score + temp;
                             Scan.negator := negator;
                             Scan.nrHits := nrHits + 1;
                             Scan.wordScores :=
                               (wordScores ++
                                [{| WordScore.word := charAt0 token;
                                    WordScore.score :=
                                      Num (negator * weightStem) |}])%list
                          |}
                  | None => ret vars
                  end
                else ret vars
            end
        | None => ret vars
        end
    end.

(** [getSentiment(utterance)] *)
Definition getSentiment (utterance : Utterance) : M Result.t :=
  this <- self ;;
  let words :=
    match utterance with
    | Tokens words => words
    | Text s => tokenize (Settings.tokenizer (settings this)) s
    end in
  match vocabulary this with
  | None =>
      ret {| Result.score := 0;
             Result.numWords := List.length words;
             Result.numHits := 0;
             Result.range := None;
             Result.comparative := Num 0;
             Result.type := Settings.type (settings this);
             Result.language := Settings.language (settings this);
             Result.wordScores := None |}
  | Some _ =>
      vars <- forEach words scoreToken Scan.init ;;
      this <- self ;;
      ret {| Result.score := Scan.score vars;
             Result.numWords := List.length words;
             Result.numHits := Scan.nrHits vars;
             Result.range := Some (normalize (Num (Scan.score vars)) None);
             Result.comparative :=
               Number.div (Num (Scan.score vars)) (Num (INR (List.length words)));
             Result.type := Settings.type (settings this);
             Result.language := Settings.language (settings this);
             Result.wordScores := Some (Scan.wordScores vars) |}
  end.

End Methods.

(* ------------------------------------------------------------------ *)
(** ** The scan of [getSentiment] as a fold *)

Section Scan.

Variable toLowerCase : string -> string.

(** The tokens that [getSentiment] scans. *)
Definition wordsOf (this : SentimentAnalyzer) (utterance : Utterance)
  : list string :=
  match utterance with
  | Tokens words => words
  | Text s => tokenize (Settings.tokenizer (settings this)) s
  end.

(** The variables after one more call of the [forEach] callback. *)
Definition scanStep (this : SentimentAnalyzer) (vars : Scan.t)
  (token : string) : Scan.t :=
  match fst (scoreToken toLowerCase token vars this) with
  | Normal vars' => vars'
  | Throw _ => vars
  end.

(** The variables after the callback ran on each of [words] in turn. *)
Definition scan (this : SentimentAnalyzer) (words : list string) : Scan.t :=
  fold_left (scanStep this) words Scan.init.

(** A token that the negation table holds. *)
Definition isNegator (this : SentimentAnalyzer) (token : string) : Prop :=
  indexOf (negations this) (toLowerCase token) <> (-1)%Z.

(** A token that the table of negation punctuations holds. *)
Definition isNegationPunctuation (this : SentimentAnalyzer)
  (token : string) : Prop :=
  indexOf (negationPunctuations this) (toLowerCase token) <> (-1)%Z.

End Scan.

(* ------------------------------------------------------------------ *)
(** ** The tables that [loadVocabulary] builds, as folds *)

(** One step of the loop of [addVocabulary]. *)
Definition mergeKey (d : jsobject) (acc : jsobject) (key : string)
  : jsobject :=
  match Obj.get d key with
  | Some weight => Obj.set acc key weight
  | None => acc
  end.

(** The vocabulary after [addVocabulary] with the dictionary [d]. *)
Definition merged (d vocabulary : jsobject) : jsobject :=
  fold_left (mergeKey d) (Obj.keys d) vocabulary.

(** One step of the stemming loop of [loadVocabulary]. *)
Definition stemKey (st : Stemmer) (vocabulary : jsobject) (acc : jsobject)
  (word : string) : jsobject :=
  let tokens := tokenizeAndStem st word in
  if (List.length tokens =? 1)%nat then
    match Obj.get vocabulary word with
    | Some weight => Obj.set acc (PropertyKey (nth_error tokens 0)) weight
    | None => acc
    end
  else acc.

(** [vocabularyStem] after the stemming loop over [vocabulary]. *)
Definition stemmed (st : Stemmer) (vocabulary : jsobject) : jsobject :=
  fold_left (stemKey st vocabulary) (Obj.keys vocabulary) [].

(* ------------------------------------------------------------------ *)
(** ** The normalisation as section 4.3 of the specification words it *)

(** Clamping to the closed interval [[-1, 1]]. *)
Definition clamp (x : R) : R := Rmax (-1) (Rmin 1 x).

(** [score / sqrt(score² + alpha)], then clamped. *)
Definition normalize_spec (score alpha : R) : R :=
  clamp (score / sqrt (score * score + alpha)).

(* ------------------------------------------------------------------ *)
(** ** The override and the stem table *)

(** Every key of the dictionary [d] is in the vocabulary [v] with the
    weight that [d] gives it. *)
Definition overrideWritten (d v : jsobject) : Prop :=
  forall k w, Obj.get d k = Some w -> Obj.get v k = Some w.

(** The stem table [stems] gives, for every word of the dictionary [d] that
    stems to exactly one token, the weight that [d] gives the word. *)
Definition stemsReflectOverride (st : Stemmer) (d stems : jsobject) : Prop :=
  forall word w s,
    Obj.get d word = Some w ->
    tokenizeAndStem st word = [s] ->
    Obj.get stems s = Some w.

(* ------------------------------------------------------------------ *)
(** ** A small analyzer to run the methods on *)

Module Example.

(** Lower-casing of the ASCII letters. *)
Definition lowerAscii (c : ascii) : ascii :=
  let n := nat_of_ascii c in
  if ((65 <=? n) && (n <=? 90))%nat then ascii_of_nat (n + 32) else c.

Fixpoint toLowerCase (s : string) : string :=
  match s with
  | EmptyString => EmptyString
  | String c s' => String (lowerAscii c) (toLowerCase s')
  end.

(** A stemmer that drops a final "s". *)
Fixpoint dropFinalS (s : string) : string :=
  match s with
  | EmptyString => EmptyString
  | String c s' =>
      match s' with
      | EmptyString => if Ascii.eqb c "s" then EmptyString else s
      | _ => String c (dropFinalS s')
      end
  end.

Definition pluralStemmer : Stemmer :=
  {| tokenizeAndStem := fun word => [dropFinalS word] |}.

(** A tokenizer that splits at spaces. *)
Fixpoint splitSpaces (s : string) (current : string) : list string :=
  match s with
  | EmptyString => [current]
  | String c s' =>
      if Ascii.eqb c " " then current :: splitSpaces s' EmptyString
      else splitSpaces s' (current ++ String c EmptyString)
  end.

Definition spaceTokenizer : Tokenizer :=
  {| tokenize := fun s => splitSpaces s EmptyString |}.

Definition config : Settings.t :=
  {| Settings.language := "en"; Settings.type := "afinn";
     Settings.useStemmer := true; Settings.tokenizer := spaceTokenizer |}.

(** An analyzer with a two-word lexicon and its stem table. *)
Definition analyzer : SentimentAnalyzer :=
  {| settings := config;
     dict := None;
     stemmer := Some pluralStemmer;
     vocabularyFileName := "./languages/en/afinn_en.json";
     negationFileName := "./languages/en/negations_en.json";
     negationPunctuationFileName :=
       "./languages/en/negationPunctuations_en.json";
     vocabulary := Some [("good", 3%R); ("b", 2%R)];
     vocabularyStem := Some [("good", 3%R); ("b", 2%R)];
     negations := ["not"; "no"];
     negationPunctuations := [","; "."];
     loadedFiles := ["./languages/en/afinn_en.json"] |}.

(** The same analyzer when no lexicon file could be read. *)
Definition unsupported : SentimentAnalyzer :=
  set_vocabularyStem None (set_vocabulary None analyzer).

(** A lexicon file in which two words share a stem, and an override
    dictionary for one of them that also brings a new word. *)
Definition base : jsobject := [("good", 3%R); ("goods", 1%R)].
Definition override : jsobject := [("good", 5%R); ("bad", (-4)%R)].

Definition readVocabulary (name : string) : option jsobject :=
  if String.eqb name "./languages/en/afinn_en.json" then Some base else None.

Definition requireWords (name : string) : option (list string) :=
  if String.eqb name "./languages/en/negations_en.json"
  then Some ["not"; "no"] else None.

Definition requirePunctuation (name : string) : option (list string) :=
  if String.eqb name "./languages/en/negationPunctuations_en.json"
  then Some [","; "."] else None.

(** An object on which [loadVocabulary] has not run yet, constructed
    with the override dictionary. *)
Definition unloaded : SentimentAnalyzer :=
  {| settings := config;
     dict := Some override;
     stemmer := Some pluralStemmer;
     vocabularyFileName := "";
     negationFileName := "";
     negationPunctuationFileName := "";
     vocabulary := None;
     vocabularyStem := None;
     negations := [];
     negationPunctuations := [];
     loadedFiles := [] |}.

End Example.

(* ------------------------------------------------------------------ *)
(** ** The constructor *)

(** The [settings] argument of the constructor: each property may be
    absent.  ([settings.stemmer] is read by the constructor only.) *)
Module Options.
Record t : Type := {
  language : option string;
  type : option string;
  useStemmer : option bool;
  tokenizer : option Tokenizer;
  stemmer : option Stemmer
}.

(** [{}] *)
Definition empty : t :=
  {| language := None; type := None; useStemmer := None;
     tokenizer := None; stemmer := None |}.
End Options.

(** [if (!s) { s = d }] for a property [s] that is a string or
    [undefined]: the empty string is falsy too. *)
Definition orDefault (s : option string) (d : string) : string :=
  match s with
  | Some (String c rest) => String c rest
  | Some EmptyString => d
  | None => d
  end.

(** The [switch] of the constructor on the language, taken when
    [settings.type] is falsy. *)
Definition defaultType (language : string) : string :=
  if String.eqb language "it" then "pattern"
  else if String.eqb language "fr" then "pattern"
  else if String.eqb language "nl" then "pattern"
  else "senticon".

Section Construction.

Variable readVocabulary : string -> option jsobject.
Variable requireWords : string -> option (list string).
Variable requirePunctuation : string -> option (list string).

(** [NlpUtil.getTokenizer] and [NlpUtil.getStemmer], of
    [../nlp/nlp-util]. *)
Variable getTokenizer : string -> Tokenizer.
Variable getStemmer : string -> option Stemmer.

(** [new SentimentAnalyzer(settings, dict)], [staticLoadedFiles] being
    [SentimentAnalyzer.loadedFiles] before the call.  The properties that
    [loadVocabulary] assigns before any read of them start as the empty
    string and the empty array. *)
Definition constructor (settings : option Options.t) (dict : option jsobject)
  (staticLoadedFiles : option (list string))
  : completion unit * SentimentAnalyzer :=
  let settings :=
    match settings with Some s => s | None => Options.empty end in
  let language := orDefault (Options.language settings) "en" in
  let tokenizer :=
    match Options.tokenizer settings with
    | Some t => t
    | None => getTokenizer language
    end in
  let type := orDefault (Options.type settings) (defaultType language) in
  let useStemmer :=
    match Options.useStemmer settings with
    | None => true
    | Some b => b
    end in
  let stemmer :=
    if useStemmer then
      match Options.stemmer settings with
      | Some st => Some st
      | None => getStemmer language
      end
    else None in
  let loadedFiles :=
    match staticLoadedFiles with Some l => l | None => [] end in
  loadVocabulary readVocabulary requireWords requirePunctuation
    {| settings :=
         {| Settings.language := language; Settings.type := type;
            Settings.useStemmer := useStemmer;
            Settings.tokenizer := tokenizer |};
       dict := dict;
       stemmer := stemmer;
       vocabularyFileName := "";
       negationFileName := "";
       negationPunctuationFileName := "";
       vocabulary := None;
       vocabularyStem := None;
       negations := [];
       negationPunctuations := [];
       loadedFiles := loadedFiles |}.

End Construction.

(* ------------------------------------------------------------------ *)
(** ** Measures of a scan *)

(** [-a] *)
Definition opposite (a : number) : number :=
  match a with
  | Num r => Num (- r)
  | NaN => NaN
  | PosInf => NegInf
  | NegInf => PosInf
  end.

(** The sum of the scores of the entries of [wordScores]. *)
Definition sumScores (wordScores : list WordScore.t) : number :=
  fold_left (fun acc entry => Number.add acc (WordScore.score entry))
    wordScores (Num 0).

Section Measures.

Variable toLowerCase : string -> string.

(** The test of the callback for a negator, and for a negation
    punctuation. *)
Definition negatorTest (this : SentimentAnalyzer) (token : string) : bool :=
  negb (indexOf (negations this) (toLowerCase token) =? -1)%Z.

Definition punctuationTest (this : SentimentAnalyzer) (token : string)
  : bool :=
  negb (indexOf (negationPunctuations this) (toLowerCase token) =? -1)%Z.

(** The number of negators among [words]. *)
Definition countNegators (this : SentimentAnalyzer) (words : list string)
  : nat :=
  List.length (filter (negatorTest this) words).

(** A token that the callback scores without the stemmer: a negator, a
    negation punctuation, or a word with an exact entry. *)
Definition matched (this : SentimentAnalyzer) (token : string) : Prop :=
  isNegator toLowerCase this token
  \/ isNegationPunctuation toLowerCase this token
  \/ exists v weight,
       vocabulary this = Some v
       /\ Obj.get v (toLowerCase token) = Some weight.

(** Two tokens that differ in case only, for an analyzer that has no
    stemmer or that scores the first without it. *)
Definition sameWord (this : SentimentAnalyzer) (token1 token2 : string)
  : Prop :=
  toLowerCase token1 = toLowerCase token2
  /\ (stemmer this = None \/ matched this token1).

End Measures.

(** The variables of a scan that goes on after another one: the scores,
    the hits and the word scores add up, the multiplier is the second
    scan's. *)
Definition continued (first second : Scan.t) : Scan.t :=
  {| Scan.score := Scan.score first + Scan.score second;
     Scan.negator := Scan.negator second;
     Scan.nrHits := Scan.nrHits first + Scan.nrHits second;
     Scan.wordScores := (Scan.wordScores first ++ Scan.wordScores second)%list
  |}.

(** The entry of a word score with the opposite score. *)
Definition oppositeEntry (entry : WordScore.t) : WordScore.t :=
  {| WordScore.word := WordScore.word entry;
     WordScore.score := opposite (WordScore.score entry) |}.

(* ------------------------------------------------------------------ *)
(** ** More analyzers to run the methods on *)

Module Sample.

(** The example analyzer built with [useStemmer: false]. *)
Definition plain : SentimentAnalyzer :=
  {| settings := Example.config;
     dict := None;
     stemmer := None;
     vocabularyFileName := "./languages/en/afinn_en.json";
     negationFileName := "./languages/en/negations_en.json";
     negationPunctuationFileName :=
       "./languages/en/negationPunctuations_en.json";
     vocabulary := Some [("good", 3%R); ("b", 2%R)];
     vocabularyStem := Some [];
     negations := ["not"; "no"];
     negationPunctuations := [","; "."];
     loadedFiles := ["./languages/en/afinn_en.json"] |}.

(** An analyzer that has read the example file and not merged its
    dictionary yet. *)
Definition merging : SentimentAnalyzer :=
  set_vocabulary (Some Example.base) Example.unloaded.

Definition getTokenizer (language : string) : Tokenizer :=
  Example.spaceTokenizer.

Definition getStemmer (language : string) : option Stemmer :=
  Some Example.pluralStemmer.

(** [{ language: 'en', type: 'afinn', useStemmer: false }] *)
Definition options : Options.t :=
  {| Options.language := Some "en"; Options.type := Some "afinn";
     Options.useStemmer := Some false; Options.tokenizer := None;
     Options.stemmer := Some Example.pluralStemmer |}.

(** A file system without any file. *)
Definition nothing {A : Type} (name : string) : option A := None.

(** The unloaded example analyzer constructed with the dictionary [d]. *)
Definition withDict (d : jsobject) : SentimentAnalyzer :=
  {| settings := Example.config;
     dict := Some d;
     stemmer := Some Example.pluralStemmer;
     vocabularyFileName := "";
     negationFileName := "";
     negationPunctuationFileName := "";
     vocabulary := None;
     vocabularyStem := None;
     negations := [];
     negationPunctuations := [];
     loadedFiles := [] |}.

(** [JSON.parse('{"__proto__": 5}')]: a dictionary that owns the key
    [__proto__]. *)
Definition protoOverride : jsobject := [("__proto__", 5%R)].

(** A dictionary for a word whose one stem is [__proto__]. *)
Definition protoStemOverride : jsobject := [("__proto__s", 2%R)].

(** A dictionary for the later of the two words that share a stem. *)
Definition laterOverride : jsobject := [("goods", 7%R)].

(** A dictionary that brings an array index. *)
Definition indexOverride : jsobject := [("1", 7%R)].

End Sample.

(* ================================================================== *)
(** * Properties *)

(* ------------------------------------------------------------------ *)
(** ** Running the methods *)

Lemma bind_run {A B} (m : M A) (k : A -> M B) this a this' :
  m this = (Normal a, this') -> bind m k this = k a this'.
Proof. unfold bind; intros ->; reflexivity. Qed.

(** The guard [tokens.length[0] < 2] compares [undefined] with 2. *)
Lemma stem_guard_false (tokens : list string) :
  (List.length tokens =? 1)%nat
  && Number.lt
       (Number.ToNumber (Number.index (Num (INR (List.length tokens))) 0))
       (Num 2) = false.
Proof. apply andb_false_r. Qed.

Section ScanFacts.

Variable toLowerCase : string -> string.

(** With a vocabulary the callback completes normally and leaves [this]
    as it was. *)
Lemma scoreToken_run this token vars :
  vocabulary this <> None ->
  scoreToken toLowerCase token vars this
  = (Normal (scanStep toLowerCase this vars token), this).
Proof.
  intros Hv.
  assert (H : exists vars',
             scoreToken toLowerCase token vars this = (Normal vars', this)).
  { unfold scoreToken, bind, self.
    destruct (negb (indexOf (negations this) (toLowerCase token) =? -1)%Z);
      [eexists; reflexivity|].
    destruct (negb (indexOf (negationPunctuations this)
                      (toLowerCase token) =? -1)%Z);
      [eexists; reflexivity|].
    destruct (vocabulary this) as [v|]; [cbn|contradiction].
    destruct (Obj.get v (toLowerCase token)); [eexists; reflexivity|].
    destruct (stemmer this) as [st|]; [|eexists; reflexivity].
    destruct (Obj.get v (PropertyKey (charAt0 token)));
      [eexists; reflexivity|].
    rewrite stem_guard_false. eexists; reflexivity. }
  destruct H as [vars' H]. unfold scanStep. rewrite H. reflexivity.
Qed.

Lemma forEach_scoreToken_run this words vars :
  vocabulary this <> None ->
  forEach words (scoreToken toLowerCase) vars this
  = (Normal (fold_left (scanStep toLowerCase this) words vars), this).
Proof.
  intros Hv. revert vars.
  induction words as [|token words IH]; intros vars; simpl.
  - reflexivity.
  - rewrite (bind_run _ _ _ _ _ (scoreToken_run this token vars Hv)).
    apply IH.
Qed.

(** [getSentiment] with a vocabulary, in terms of the scan. *)
Lemma getSentiment_run this utterance :
  vocabulary this <> None ->
  getSentiment toLowerCase utterance this
  = (Normal
       (let words := wordsOf this utterance in
        let vars := scan toLowerCase this words in
        {| Result.score := Scan.score vars;
           Result.numWords := List.length words;
           Result.numHits := Scan.nrHits vars;
           Result.range := Some (normalize (Num (Scan.score vars)) None);
           Result.comparative :=
             Number.div (Num (Scan.score vars))
               (Num (INR (List.length words)));
           Result.type := Settings.type (settings this);
           Result.language := Settings.language (settings this);
           Result.wordScores := Some (Scan.wordScores vars) |}),
     this).
Proof.
  intros Hv. unfold getSentiment.
  unfold bind at 1. unfold self at 1.
  destruct (vocabulary this) as [v|] eqn:E; [|contradiction].
  assert (Hv' : vocabulary this <> None) by (rewrite E; discriminate).
  rewrite (bind_run _ _ _ _ _
             (forEach_scoreToken_run this _ Scan.init Hv')).
  destruct utterance; reflexivity.
Qed.

(** [getSentiment] without a vocabulary. *)
Lemma getSentiment_degraded this utterance :
  vocabulary this = None ->
  getSentiment toLowerCase utterance this
  = (Normal
       {| Result.score := 0;
          Result.numWords := List.length (wordsOf this utterance);
          Result.numHits := 0;
          Result.range := None;
          Result.comparative := Num 0;
          Result.type := Settings.type (settings this);
          Result.language := Settings.language (settings this);
          Result.wordScores := None |},
     this).
Proof.
  intros Hv. unfold getSentiment, bind, self.
  rewrite Hv. destruct utterance; reflexivity.
Qed.

Lemma scan_snoc this words token :
  scan toLowerCase this (words ++ [token])
  = scanStep toLowerCase this (scan toLowerCase this words) token.
Proof. unfold scan. rewrite fold_left_app. reflexivity. Qed.

End ScanFacts.

(* ------------------------------------------------------------------ *)
(** ** One call of the callback, case by case *)

Section StepCases.

Variable toLowerCase : string -> string.

Lemma indexOf_test (l : list string) (x : string) :
  negb (indexOf l x =? -1)%Z = true <-> indexOf l x <> (-1)%Z.
Proof.
  rewrite negb_true_iff. split; intros H.
  - intros E. rewrite E in H. discriminate.
  - apply Z.eqb_neq. exact H.
Qed.

Lemma indexOf_test_false (l : list string) (x : string) :
  negb (indexOf l x =? -1)%Z = false <-> ~ indexOf l x <> (-1)%Z.
Proof.
  rewrite negb_false_iff, Z.eqb_eq. split; intros H.
  - intros E. apply E. exact H.
  - destruct (Z.eq_dec (indexOf l x) (-1)) as [E|E]; [exact E|contradiction].
Qed.

(** A negator: the multiplier becomes -1 and the token is a hit. *)
Lemma scanStep_negator this vars token :
  isNegator toLowerCase this token ->
  scanStep toLowerCase this vars token
  = {| Scan.score := Scan.score vars; Scan.negator := -1;
       Scan.nrHits := Scan.nrHits vars + 1;
       Scan.wordScores := Scan.wordScores vars |}.
Proof.
  intros H. apply indexOf_test in H.
  unfold scanStep, scoreToken, bind, self. rewrite H. reflexivity.
Qed.

(** A negation punctuation that is no negator: the multiplier becomes 1. *)
Lemma scanStep_punctuation this vars token :
  ~ isNegator toLowerCase this token ->
  isNegationPunctuation toLowerCase this token ->
  scanStep toLowerCase this vars token
  = {| Scan.score := Scan.score vars; Scan.negator := 1;
       Scan.nrHits := Scan.nrHits vars;
       Scan.wordScores := Scan.wordScores vars |}.
Proof.
  intros H1 H2. apply indexOf_test_false in H1. apply indexOf_test in H2.
  unfold scanStep, scoreToken, bind, self. rewrite H1, H2. reflexivity.
Qed.

(** Any other token: what the callback does is decided by the exact entry
    of the lower-cased token and, failing that and with a stemmer, by the
    entry of the first character of the token; the stem table and the
    stems play no part. *)
Lemma scanStep_word this vars token v :
  ~ isNegator toLowerCase this token ->
  ~ isNegationPunctuation toLowerCase this token ->
  vocabulary this = Some v ->
  scanStep toLowerCase this vars token
  = match Obj.get v (toLowerCase token) with
    | Some weight =>
        {| Scan.score := Scan.score vars + Scan.negator vars * weight;
           Scan.negator := Scan.negator vars;
           Scan.nrHits := Scan.nrHits vars + 1;
           Scan.wordScores :=
             (Scan.wordScores vars ++
              [{| WordScore.word := Some (toLowerCase token);
                  WordScore.score := Num (Scan.negator vars * weight) |}])%list
        |}
    | None =>
        match stemmer this, Obj.get v (PropertyKey (charAt0 token)) with
        | Some _, Some weight0 =>
            {| Scan.score := Scan.score vars + Scan.negator vars * weight0;
               Scan.negator := Scan.negator vars;
               Scan.nrHits := Scan.nrHits vars + 1;
               Scan.wordScores :=
                 (Scan.wordScores vars ++
                  [{| WordScore.word := charAt0 token;
                      WordScore.score := NaN |}])%list |}
        | _, _ => vars
        end
    end.
Proof.
  intros H1 H2 Hv. apply indexOf_test_false in H1, H2.
  unfold scanStep, scoreToken, bind, self. rewrite H1, H2, Hv. cbn.
  destruct (Obj.get v (toLowerCase token)) eqn:E; [reflexivity|].
  destruct (stemmer this) as [st|]; [|reflexivity].
  destruct (Obj.get v (PropertyKey (charAt0 token))); [reflexivity|].
  rewrite stem_guard_false. reflexivity.
Qed.

(** The callback never reads the stem table. *)
Lemma scoreToken_ignores_stem_table this stems token vars :
  fst (scoreToken toLowerCase token vars (set_vocabularyStem stems this))
  = fst (scoreToken toLowerCase token vars this).
Proof.
  unfold scoreToken, bind, self. cbn [negations negationPunctuations
    vocabulary stemmer set_vocabularyStem].
  destruct (negb (indexOf (negations this) (toLowerCase token) =? -1)%Z);
    [reflexivity|].
  destruct (negb (indexOf (negationPunctuations this)
                    (toLowerCase token) =? -1)%Z);
    [reflexivity|].
  destruct (vocabulary this) as [v|]; [cbn|reflexivity].
  destruct (Obj.get v (toLowerCase token)); [reflexivity|].
  destruct (stemmer this) as [st|]; [|reflexivity].
  destruct (Obj.get v (PropertyKey (charAt0 token))); [reflexivity|].
  rewrite stem_guard_false. reflexivity.
Qed.

Lemma isNegator_dec this token :
  {isNegator toLowerCase this token} + {~ isNegator toLowerCase this token}.
Proof.
  unfold isNegator.
  destruct (Z.eq_dec (indexOf (negations this) (toLowerCase token)) (-1));
    [right; intros H; apply H; assumption | left; assumption].
Qed.

Lemma isNegationPunctuation_dec this token :
  {isNegationPunctuation toLowerCase this token}
  + {~ isNegationPunctuation toLowerCase this token}.
Proof.
  unfold isNegationPunctuation.
  destruct (Z.eq_dec (indexOf (negationPunctuations this)
                        (toLowerCase token)) (-1));
    [right; intros H; apply H; assumption | left; assumption].
Qed.

(** A token that is neither a negator nor a negation punctuation leaves
    the multiplier as it is. *)
Lemma scanStep_keeps_negator this vars token :
  ~ isNegator toLowerCase this token ->
  ~ isNegationPunctuation toLowerCase this token ->
  Scan.negator (scanStep toLowerCase this vars token) = Scan.negator vars.
Proof.
  intros H1 H2. destruct (vocabulary this) as [v|] eqn:Hv.
  - rewrite (scanStep_word this vars token v H1 H2 Hv).
    destruct (Obj.get v (toLowerCase token)); [reflexivity|].
    destruct (stemmer this); [|reflexivity].
    destruct (Obj.get v (PropertyKey (charAt0 token))); reflexivity.
  - apply indexOf_test_false in H1, H2.
    unfold scanStep, scoreToken, bind, self. rewrite H1, H2, Hv.
    reflexivity.
Qed.

(** The multiplier after a call is 1 or -1 when it was before. *)
Lemma scanStep_negator_sign this vars token :
  Scan.negator vars = 1%R \/ Scan.negator vars = (-1)%R ->
  Scan.negator (scanStep toLowerCase this vars token) = 1%R
  \/ Scan.negator (scanStep toLowerCase this vars token) = (-1)%R.
Proof.
  intros H.
  destruct (isNegator_dec this token) as [N|N].
  - rewrite (scanStep_negator _ _ _ N). right; reflexivity.
  - destruct (isNegationPunctuation_dec this token) as [P|P].
    + rewrite (scanStep_punctuation _ _ _ N P). left; reflexivity.
    + rewrite (scanStep_keeps_negator _ _ _ N P). exact H.
Qed.

(** A call counts at most one hit and never takes one back. *)
Lemma scanStep_hits this vars token :
  (Scan.nrHits vars <= Scan.nrHits (scanStep toLowerCase this vars token)
   <= Scan.nrHits vars + 1)%nat.
Proof.
  destruct (isNegator_dec this token) as [N|N].
  - rewrite (scanStep_negator _ _ _ N). simpl. lia.
  - destruct (isNegationPunctuation_dec this token) as [P|P].
    + rewrite (scanStep_punctuation _ _ _ N P). simpl. lia.
    + destruct (vocabulary this) as [v|] eqn:Hv.
      * rewrite (scanStep_word this vars token v N P Hv).
        destruct (Obj.get v (toLowerCase token)); [simpl; lia|].
        destruct (stemmer this); [|lia].
        destruct (Obj.get v (PropertyKey (charAt0 token))); simpl; lia.
      * apply indexOf_test_false in N, P.
        unfold scanStep, scoreToken, bind, self. rewrite N, P, Hv.
        simpl. lia.
Qed.

Lemma fold_scanStep_hits this words vars :
  (Scan.nrHits (fold_left (scanStep toLowerCase this) words vars)
   <= Scan.nrHits vars + List.length words)%nat.
Proof.
  revert vars. induction words as [|token words IH]; intros vars; simpl.
  - lia.
  - specialize (IH (scanStep toLowerCase this vars token)).
    pose proof (scanStep_hits this vars token). lia.
Qed.

Lemma scan_negator_sign this words :
  Scan.negator (scan toLowerCase this words) = 1%R
  \/ Scan.negator (scan toLowerCase this words) = (-1)%R.
Proof.
  induction words as [|token words IH] using rev_ind.
  - left; reflexivity.
  - rewrite scan_snoc. apply scanStep_negator_sign. exact IH.
Qed.

End StepCases.

(* ------------------------------------------------------------------ *)
(** ** The result of [getSentiment] *)

Section Results.

Variable toLowerCase : string -> string.

(** [getSentiment] always completes normally, on every analyzer state. *)
Lemma getSentiment_returns this utterance :
  exists result,
    getSentiment toLowerCase utterance this = (Normal result, this).
Proof.
  destruct (vocabulary this) as [v|] eqn:Hv.
  - eexists. apply getSentiment_run. rewrite Hv; discriminate.
  - eexists. apply getSentiment_degraded. exact Hv.
Qed.

(** C9. [getSentiment] is read-only on the analyzer: every call completes
    normally and the analyzer after the call, with its [vocabulary],
    [vocabularyStem], [negations] and [negationPunctuations] tables and
    every other field, equals the analyzer before the call. *)
Theorem getSentiment_read_only this utterance :
  (exists result,
      getSentiment toLowerCase utterance this = (Normal result, this))
  /\ let this' := snd (getSentiment toLowerCase utterance this) in
     this' = this
     /\ vocabulary this' = vocabulary this
     /\ vocabularyStem this' = vocabularyStem this
     /\ negations this' = negations this
     /\ negationPunctuations this' = negationPunctuations this.
Proof.
  destruct (getSentiment_returns this utterance) as [result H].
  split; [exists result; exact H|].
  rewrite H. simpl. repeat split.
Qed.

(** C2, as the code has it.  On the empty token sequence the result has
    score 0, numWords 0 and numHits 0 on both paths; comparative is 0
    without a vocabulary, but with a vocabulary it is [0 / 0], NaN. *)
Theorem getSentiment_empty this :
  exists result,
    getSentiment toLowerCase (Tokens []) this = (Normal result, this)
    /\ Result.score result = 0%R
    /\ Result.numWords result = 0%nat
    /\ Result.numHits result = 0%nat
    /\ (vocabulary this = None -> Result.comparative result = Num 0)
    /\ (vocabulary this <> None -> Result.comparative result = NaN).
Proof.
  destruct (vocabulary this) as [v|] eqn:Hv.
  - eexists. split.
    + apply getSentiment_run. rewrite Hv; discriminate.
    + cbn. repeat split; try discriminate.
      intros _. destruct (Req_dec_T 0 0) as [_|N]; [reflexivity|].
      exfalso; apply N; reflexivity.
  - eexists. split.
    + apply getSentiment_degraded. exact Hv.
    + cbn. repeat split. intros N; exfalso; apply N; reflexivity.
Qed.

(** C8. For every utterance and every analyzer, the result has
    numHits <= numWords: numWords is the number of tokens scanned, and a
    call of the callback adds at most one hit. *)
Theorem numHits_le_numWords this utterance :
  exists result,
    getSentiment toLowerCase utterance this = (Normal result, this)
    /\ Result.numWords result = List.length (wordsOf this utterance)
    /\ (Result.numHits result <= Result.numWords result)%nat
    /\ forall vars token,
         (Scan.nrHits (scanStep toLowerCase this vars token)
          <= Scan.nrHits vars + 1)%nat.
Proof.
  destruct (vocabulary this) as [v|] eqn:Hv.
  - eexists. split; [apply getSentiment_run; rewrite Hv; discriminate|].
    cbn. split; [reflexivity|]. split.
    + apply (fold_scanStep_hits toLowerCase this
               (wordsOf this utterance) Scan.init).
    + intros vars token. apply scanStep_hits.
  - eexists. split; [apply getSentiment_degraded; exact Hv|].
    cbn. split; [reflexivity|]. split; [lia|].
    intros vars token. apply scanStep_hits.
Qed.

(** A run of negators ends with the multiplier at -1. *)
Lemma fold_negators this negators vars :
  negators <> [] ->
  Forall (isNegator toLowerCase this) negators ->
  Scan.negator (fold_left (scanStep toLowerCase this) negators vars)
  = (-1)%R.
Proof.
  intros Hne Hall. revert vars Hne.
  induction Hall as [|token rest Htoken Hrest IH]; intros vars Hne.
  - contradiction.
  - simpl. destruct rest as [|token' rest'].
    + simpl. rewrite (scanStep_negator _ _ _ _ Htoken). reflexivity.
    + apply IH. discriminate.
Qed.

(** C10. At every point of the scan the multiplier is 1 or -1, and a
    negator assigns -1, it does not toggle: after two or more consecutive
    negators the multiplier is -1.  ([scan] gives the variables of the
    [forEach] loop of [getSentiment].) *)
Theorem negator_is_sign this words :
  (vocabulary this <> None ->
   forEach words (scoreToken toLowerCase) Scan.init this
   = (Normal (scan toLowerCase this words), this))
  /\ (forall before after,
        words = (before ++ after)%list ->
        Scan.negator (scan toLowerCase this before) = 1%R
        \/ Scan.negator (scan toLowerCase this before) = (-1)%R)
  /\ (forall before negators after,
        words = (before ++ negators ++ after)%list ->
        (2 <= List.length negators)%nat ->
        Forall (isNegator toLowerCase this) negators ->
        Scan.negator (scan toLowerCase this (before ++ negators)) = (-1)%R).
Proof.
  split; [|split].
  - intros Hv. apply forEach_scoreToken_run. exact Hv.
  - intros before after _. apply scan_negator_sign.
  - intros before negators after _ Hlen Hall.
    unfold scan. rewrite fold_left_app. apply fold_negators; [|exact Hall].
    destruct negators; [simpl in Hlen; lia | discriminate].
Qed.

(** After a negator, tokens that are no negation punctuation leave the
    multiplier at -1. *)
Lemma fold_keeps_negation this tokens vars :
  Scan.negator vars = (-1)%R ->
  Forall (fun token => ~ isNegationPunctuation toLowerCase this token)
    tokens ->
  Scan.negator (fold_left (scanStep toLowerCase this) tokens vars) = (-1)%R.
Proof.
  intros Hvars Hall. revert vars Hvars.
  induction Hall as [|token rest Htoken Hrest IH]; intros vars Hvars.
  - exact Hvars.
  - simpl. apply IH.
    destruct (isNegator_dec toLowerCase this token) as [N|N].
    + rewrite (scanStep_negator _ _ _ _ N). reflexivity.
    + rewrite (scanStep_keeps_negator _ _ _ _ N Htoken). exact Hvars.
Qed.

(** C4. In the scan, a negator sets the multiplier to -1, counts as a hit
    and leaves the score (and the word scores) as they are; a negation
    punctuation, which the callback tests for when the token is no negator,
    sets the multiplier to 1 and counts no hit; any other token leaves the
    multiplier as it is, so that it stays -1 after a negator over every run
    of tokens without a negation punctuation.  ([scan] gives the variables
    of the [forEach] loop of [getSentiment].) *)
Theorem negation_tokens this words token :
  let before := scan toLowerCase this words in
  let after := scan toLowerCase this (words ++ [token]) in
  (vocabulary this <> None ->
   forEach (words ++ [token]) (scoreToken toLowerCase) Scan.init this
   = (Normal after, this))
  /\ (isNegator toLowerCase this token ->
      Scan.negator after = (-1)%R
      /\ Scan.nrHits after = (Scan.nrHits before + 1)%nat
      /\ Scan.score after = Scan.score before
      /\ Scan.wordScores after = Scan.wordScores before)
  /\ (~ isNegator toLowerCase this token ->
      isNegationPunctuation toLowerCase this token ->
      Scan.negator after = 1%R
      /\ Scan.nrHits after = Scan.nrHits before
      /\ Scan.score after = Scan.score before
      /\ Scan.wordScores after = Scan.wordScores before)
  /\ (~ isNegator toLowerCase this token ->
      ~ isNegationPunctuation toLowerCase this token ->
      Scan.negator after = Scan.negator before)
  /\ (isNegator toLowerCase this token ->
      forall rest,
        Forall (fun t => ~ isNegationPunctuation toLowerCase this t) rest ->
        Scan.negator (scan toLowerCase this (words ++ token :: rest))
        = (-1)%R).
Proof.
  cbv zeta. split; [|split; [|split; [|split]]].
  - intros Hv. apply forEach_scoreToken_run. exact Hv.
  - intros N. rewrite scan_snoc, (scanStep_negator _ _ _ _ N).
    repeat split.
  - intros N P. rewrite scan_snoc, (scanStep_punctuation _ _ _ _ N P).
    repeat split.
  - intros N P. rewrite scan_snoc. apply scanStep_keeps_negator; assumption.
  - intros N rest Hrest. unfold scan. rewrite fold_left_app. simpl.
    apply fold_keeps_negation; [|exact Hrest].
    rewrite (scanStep_negator _ _ _ _ N). reflexivity.
Qed.

End Results.

(* ------------------------------------------------------------------ *)
(** ** normalize on the reals *)

Section Normalize.

Local Open Scope R_scope.

Lemma denominator_pos s alpha : 0 < alpha -> 0 < sqrt (s * s + alpha).
Proof. intros Ha. apply sqrt_lt_R0. nra. Qed.

Lemma denominator_square s alpha :
  0 < alpha -> sqrt (s * s + alpha) * sqrt (s * s + alpha) = s * s + alpha.
Proof. intros Ha. apply sqrt_sqrt. nra. Qed.

(** The quotient lies strictly inside the unit interval. *)
Lemma quotient_bounds s alpha :
  0 < alpha -> -1 < s / sqrt (s * s + alpha) < 1.
Proof.
  intros Ha.
  pose proof (denominator_pos s alpha Ha) as Hd.
  pose proof (denominator_square s alpha Ha) as Hq.
  set (d := sqrt (s * s + alpha)) in *.
  assert (Hs : - d < s < d) by nra.
  split; apply (Rmult_lt_reg_r d); try exact Hd;
    unfold Rdiv; rewrite Rmult_assoc, Rinv_l; lra.
Qed.

(** Cross-multiplied form of the monotonicity of the quotient. *)
Lemma quotient_cross s1 s2 alpha :
  0 < alpha -> s1 <= s2 ->
  s1 * sqrt (s2 * s2 + alpha) <= s2 * sqrt (s1 * s1 + alpha).
Proof.
  intros Ha Hs.
  pose proof (denominator_pos s1 alpha Ha) as Hd1.
  pose proof (denominator_square s1 alpha Ha) as Hq1.
  pose proof (denominator_pos s2 alpha Ha) as Hd2.
  pose proof (denominator_square s2 alpha Ha) as Hq2.
  set (d1 := sqrt (s1 * s1 + alpha)) in *.
  set (d2 := sqrt (s2 * s2 + alpha)) in *.
  assert (E1 : (s2 * d1) * (s2 * d1) = s2 * s2 * (s1 * s1 + alpha))
    by (rewrite <- Hq1; ring).
  assert (E2 : (s1 * d2) * (s1 * d2) = s1 * s1 * (s2 * s2 + alpha))
    by (rewrite <- Hq2; ring).
  destruct (Rle_dec (s1 * d2) (s2 * d1)) as [Y|N]; [exact Y|].
  exfalso. apply Rnot_le_lt in N.
  destruct (Rle_dec 0 s1) as [P1|N1].
  - (* 0 <= s1 <= s2: compare the squares *)
    assert (0 <= s2 * d1) by nra.
    assert ((s2 * d1) * (s2 * d1) < (s1 * d2) * (s1 * d2)) by nra.
    assert (s1 * s1 <= s2 * s2) by nra.
    assert (0 <= alpha * (s2 * s2 - s1 * s1)) by (apply Rmult_le_pos; lra).
    nra.
  - apply Rnot_le_lt in N1.
    destruct (Rle_dec 0 s2) as [P2|N2].
    + (* s1 < 0 <= s2 *) nra.
    + (* s1 <= s2 < 0: the same on the opposites *)
      apply Rnot_le_lt in N2.
      assert (0 <= (- s1) * d2) by nra.
      assert (((- s1) * d2) * ((- s1) * d2) < ((- s2) * d1) * ((- s2) * d1))
        by nra.
      assert (s2 * s2 <= s1 * s1) by nra.
      assert (0 <= alpha * (s1 * s1 - s2 * s2)) by (apply Rmult_le_pos; lra).
      nra.
Qed.

Lemma quotient_monotone s1 s2 alpha :
  0 < alpha -> s1 <= s2 ->
  s1 / sqrt (s1 * s1 + alpha) <= s2 / sqrt (s2 * s2 + alpha).
Proof.
  intros Ha Hs.
  pose proof (denominator_pos s1 alpha Ha) as Hd1.
  pose proof (denominator_pos s2 alpha Ha) as Hd2.
  pose proof (quotient_cross s1 s2 alpha Ha Hs) as Hc.
  set (d1 := sqrt (s1 * s1 + alpha)) in *.
  set (d2 := sqrt (s2 * s2 + alpha)) in *.
  apply (Rmult_le_reg_r (d1 * d2)); [nra|].
  replace (s1 / d1 * (d1 * d2)) with (s1 * d2) by (field; lra).
  replace (s2 / d2 * (d1 * d2)) with (s2 * d1) by (field; lra).
  exact Hc.
Qed.

(** On a real score and a positive real alpha, [normalize] computes the
    quotient; neither test of the clamp fires. *)
Lemma normalize_real s alpha :
  0 < alpha ->
  normalize (Num s) (Some (Num alpha)) = Num (s / sqrt (s * s + alpha)).
Proof.
  intros Ha.
  pose proof (denominator_pos s alpha Ha) as Hd.
  pose proof (quotient_bounds s alpha Ha) as [Hlo Hhi].
  unfold normalize, Number.gt. cbn [Number.mul Number.add Number.sqrt].
  destruct (Rlt_dec (s * s + alpha) 0) as [N|_]; [nra|].
  cbn [Number.div].
  destruct (Req_dec_T (sqrt (s * s + alpha)) 0) as [Z|_]; [lra|].
  cbn [Number.lt].
  destruct (Rlt_dec (s / sqrt (s * s + alpha)) (-1)) as [L|_]; [lra|].
  destruct (Rlt_dec 1 (s / sqrt (s * s + alpha))) as [G|_]; [lra|].
  reflexivity.
Qed.

Lemma clamp_inside x : -1 < x < 1 -> clamp x = x.
Proof.
  intros [Hlo Hhi]. unfold clamp.
  rewrite (Rmin_right 1 x) by lra. apply Rmax_right. lra.
Qed.

Lemma clamp_bounds x : -1 <= clamp x <= 1.
Proof.
  unfold clamp. split.
  - apply Rmax_l.
  - apply Rmax_lub; [lra | apply Rmin_l].
Qed.

(** For a positive alpha the quotient needs no clamp. *)
Lemma normalize_spec_quotient s alpha :
  0 < alpha -> normalize_spec s alpha = s / sqrt (s * s + alpha).
Proof.
  intros Ha. unfold normalize_spec. apply clamp_inside, quotient_bounds, Ha.
Qed.

(** On the real scores from 1 on, the formula of section 4.3 gives at
    least a quarter. *)
Lemma normalize_spec_from_one s : 1 <= s -> 1 / 4 <= normalize_spec s 15.
Proof.
  intros Hs. rewrite normalize_spec_quotient by lra.
  pose proof (quotient_monotone 1 s 15 ltac:(lra) Hs) as H.
  replace (1 * 1 + 15) with (4 * 4) in H by lra.
  rewrite sqrt_square in H by lra. exact H.
Qed.

(** On real scores the formula of section 4.3 is non-decreasing. *)
Lemma normalize_spec_monotone s1 s2 :
  s1 <= s2 -> normalize_spec s1 15 <= normalize_spec s2 15.
Proof.
  intros Hs. rewrite !normalize_spec_quotient by lra.
  apply quotient_monotone; [lra | exact Hs].
Qed.

End Normalize.

(* ------------------------------------------------------------------ *)
(** ** normalize on binary64 numbers *)

(** The binary64 number of [1e155] is the real 8397345134458861 * 2^462. *)
Lemma ten_to_155_real :
  Binary64.toReal Binary64.ten_to_155
  = Some (1 * IZR 8397345134458861 * powerRZ 2 462)%R.
Proof.
  unfold Binary64.toReal.
  replace (FloatOps.Prim2SF Binary64.ten_to_155)
    with (SpecFloat.S754_finite false 8397345134458861 462)
    by (vm_compute; reflexivity).
  reflexivity.
Qed.

Lemma one_real : Binary64.toReal 1%float = Some 1%R.
Proof.
  unfold Binary64.toReal.
  replace (FloatOps.Prim2SF 1%float)
    with (SpecFloat.S754_finite false 4503599627370496 (-52))
    by (vm_compute; reflexivity).
  f_equal.
  change (powerRZ 2 (-52)) with (/ 2 ^ 52)%R.
  rewrite (pow_IZR 2 52).
  replace (2 ^ Z.of_nat 52)%Z with 4503599627370496%Z by reflexivity.
  field.
Qed.

Lemma zero_real : Binary64.toReal 0%float = Some 0%R.
Proof.
  unfold Binary64.toReal.
  replace (FloatOps.Prim2SF 0%float) with (SpecFloat.S754_zero false)
    by (vm_compute; reflexivity).
  reflexivity.
Qed.

Lemma ten_to_155_large : (1 <= 1 * IZR 8397345134458861 * powerRZ 2 462)%R.
Proof.
  assert (H : (1 <= powerRZ 2 462)%R).
  { change (powerRZ 2 462) with (2 ^ Pos.to_nat 462)%R.
    apply pow_R1_Rle. lra. }
  assert (H1 : (1 <= IZR 8397345134458861)%R) by (apply IZR_le; lia).
  nra.
Qed.

(** C6, on the code.  The score [1e155] is a real number, at least 1, for
    which the formula of the claim gives at least a quarter; the code
    squares it, the square overflows to Infinity, and [normalize] returns
    0.  A score that is Infinity (the sum of two weights [1e308]) or NaN
    gives the range NaN, which lies in no interval. *)
Theorem normalize_overflow :
  (exists score : R,
      Binary64.toReal Binary64.ten_to_155 = Some score
      /\ (1 <= score)%R
      /\ (1 / 4 <= normalize_spec score 15 <= 1)%R)
  /\ Binary64.normalize Binary64.ten_to_155 None = 0%float
  /\ Binary64.normalize Binary64.ten_to_155 (Some 15%float) = 0%float
  /\ Binary64.toReal (Binary64.normalize Binary64.ten_to_155 None)
     = Some 0%R
  /\ PrimFloat.add Binary64.ten_to_308 Binary64.ten_to_308 = infinity
  /\ Binary64.normalize
       (PrimFloat.add Binary64.ten_to_308 Binary64.ten_to_308) None = nan
  /\ Binary64.normalize nan None = nan
  /\ Binary64.toReal nan = None.
Proof.
  split.
  - eexists. split; [apply ten_to_155_real|].
    split; [apply ten_to_155_large|].
    split; [apply normalize_spec_from_one, ten_to_155_large|].
    apply clamp_bounds.
  - assert (E : Binary64.normalize Binary64.ten_to_155 None = 0%float)
      by (vm_compute; reflexivity).
    split; [exact E|]. split; [exact E|].
    split; [rewrite E; apply zero_real|].
    repeat split; vm_compute; reflexivity.
Qed.

(** C7, on the code.  [normalize(0)] is 0.  But [normalize] is not
    non-decreasing: the scores 1 and [1e155] are real numbers with
    1 <= 1e155, the formula of the claim is non-decreasing on the reals,
    and the code gives [normalize(1)] = 0.25 and, the square overflowing,
    [normalize(1e155)] = 0.  Rounding alone does it too: from the score
    3.0000000000000155 to the next binary64 number the value goes down. *)
Theorem normalize_not_monotone :
  Binary64.normalize 0%float None = 0%float
  /\ (forall s1 s2 : R,
        (s1 <= s2)%R -> (normalize_spec s1 15 <= normalize_spec s2 15)%R)
  /\ Binary64.toReal 1%float = Some 1%R
  /\ (exists s2 : R,
        Binary64.toReal Binary64.ten_to_155 = Some s2 /\ (1 <= s2)%R)
  /\ PrimFloat.leb 1%float Binary64.ten_to_155 = true
  /\ Binary64.normalize 1%float None = 0.25%float
  /\ Binary64.normalize Binary64.ten_to_155 None = 0%float
  /\ PrimFloat.ltb (Binary64.normalize Binary64.ten_to_155 None)
       (Binary64.normalize 1%float None) = true
  /\ (let s := 0x1.8000000000023p+1%float in
      PrimFloat.ltb s (next_up s) = true
      /\ PrimFloat.ltb (Binary64.normalize (next_up s) None)
           (Binary64.normalize s None) = true).
Proof.
  split; [vm_compute; reflexivity|].
  split; [apply normalize_spec_monotone|].
  split; [apply one_real|]. split.
  - eexists. split; [apply ten_to_155_real | apply ten_to_155_large].
  - cbv zeta. repeat split; vm_compute; reflexivity.
Qed.

(* ------------------------------------------------------------------ *)
(** ** Dictionaries *)

Lemma get_replace_same (o : jsobject) (k : string) (v : R) :
  Obj.get (Obj.replace o k v) k = Some v.
Proof.
  induction o as [|[k' v'] o IH]; simpl.
  - rewrite String.eqb_refl. reflexivity.
  - destruct (String.eqb k' k) eqn:E; simpl; rewrite E; [reflexivity|exact IH].
Qed.

Lemma get_replace_other (o : jsobject) (k k' : string) (v : R) :
  k <> k' -> Obj.get (Obj.replace o k v) k' = Obj.get o k'.
Proof.
  intros Hk. induction o as [|[k0 v0] o IH]; simpl.
  - destruct (String.eqb_spec k k'); [contradiction|reflexivity].
  - destruct (String.eqb_spec k0 k) as [->|N]; simpl.
    + destruct (String.eqb_spec k k'); [contradiction|reflexivity].
    + destruct (String.eqb k0 k'); [reflexivity|exact IH].
Qed.

Lemma replace_same_value (o : jsobject) (k : string) (w : R) :
  Obj.get o k = Some w -> Obj.replace o k w = o.
Proof.
  induction o as [|[k' v'] o IH]; simpl; intros H.
  - discriminate.
  - destruct (String.eqb_spec k' k) as [->|N].
    + injection H as ->. reflexivity.
    + rewrite (IH H). reflexivity.
Qed.

Lemma get_insertIndex_same (o : jsobject) (k : string) (n : N) (v : R) :
  Obj.get o k = None -> Obj.get (Obj.insertIndex o k n v) k = Some v.
Proof.
  induction o as [|[k' v'] o IH]; simpl; intros H.
  - rewrite String.eqb_refl. reflexivity.
  - destruct (String.eqb k' k) eqn:E; [discriminate|].
    destruct (Obj.arrayIndex k') as [n'|].
    + destruct (n' <? n)%N; simpl.
      * rewrite E. apply IH, H.
      * rewrite String.eqb_refl. reflexivity.
    + simpl. rewrite String.eqb_refl. reflexivity.
Qed.

Lemma get_insertIndex_other (o : jsobject) (k k' : string) (n : N) (v : R) :
  k <> k' -> Obj.get (Obj.insertIndex o k n v) k' = Obj.get o k'.
Proof.
  intros Hk. induction o as [|[k0 v0] o IH]; simpl.
  - destruct (String.eqb_spec k k'); [contradiction|reflexivity].
  - destruct (Obj.arrayIndex k0) as [n0|].
    + destruct (n0 <? n)%N; simpl.
      * destruct (String.eqb k0 k'); [reflexivity|exact IH].
      * destruct (String.eqb_spec k k'); [contradiction|reflexivity].
    + simpl. destruct (String.eqb_spec k k'); [contradiction|reflexivity].
Qed.

(** Reading an object that got one more key at its end. *)
Lemma get_snoc (o : jsobject) (k k' : string) (v : R) :
  Obj.get (o ++ [(k, v)])%list k'
  = match Obj.get o k' with
    | Some w => Some w
    | None => if String.eqb k k' then Some v else None
    end.
Proof.
  induction o as [|[k0 v0] o IH]; simpl.
  - reflexivity.
  - destruct (String.eqb k0 k'); [reflexivity|exact IH].
Qed.

(** The keys of an object are the keys that have a value. *)
Lemma get_in_keys (o : jsobject) (k : string) :
  In k (Obj.keys o) <-> Obj.get o k <> None.
Proof.
  induction o as [|[k' v'] o IH]; simpl.
  - split; [contradiction | intros H; apply H; reflexivity].
  - destruct (String.eqb_spec k' k) as [->|N].
    + split; [discriminate | left; reflexivity].
    + rewrite <- IH. split; [intros [E|H]; [contradiction|exact H] | right; assumption].
Qed.

Lemma existsb_eqb_In (k : string) (l : list string) :
  existsb (String.eqb k) l = true <-> In k l.
Proof.
  rewrite existsb_exists. split.
  - intros [x [HI E]]. apply String.eqb_eq in E. subst x. exact HI.
  - intros HI. exists k. split; [exact HI | apply String.eqb_refl].
Qed.

(** An assignment is read back, unless it was the ignored assignment to
    [__proto__]. *)
Lemma get_set_same (o : jsobject) (k : string) (v : R) :
  k <> "__proto__" \/ Obj.get o k <> None ->
  Obj.get (Obj.set o k v) k = Some v.
Proof.
  intros H. unfold Obj.set. destruct (Obj.get o k) as [w|] eqn:E.
  - apply get_replace_same.
  - destruct (String.eqb_spec k "__proto__") as [->|N].
    + destruct H as [H|H]; exfalso; apply H; reflexivity.
    + destruct (Obj.arrayIndex k) as [n|].
      * apply get_insertIndex_same, E.
      * rewrite get_snoc, E, String.eqb_refl. reflexivity.
Qed.

Lemma get_set_other (o : jsobject) (k k' : string) (v : R) :
  k <> k' -> Obj.get (Obj.set o k v) k' = Obj.get o k'.
Proof.
  intros Hk. unfold Obj.set. destruct (Obj.get o k).
  - apply get_replace_other, Hk.
  - destruct (String.eqb k "__proto__"); [reflexivity|].
    destruct (Obj.arrayIndex k).
    + apply get_insertIndex_other, Hk.
    + rewrite get_snoc. destruct (Obj.get o k'); [reflexivity|].
      destruct (String.eqb_spec k k'); [contradiction|reflexivity].
Qed.

(** Assigning to [__proto__] changes an object only if it owns that key. *)
Lemma set_proto_ignored (o : jsobject) (v : R) :
  Obj.get o "__proto__" = None -> Obj.set o "__proto__" v = o.
Proof. intros H. unfold Obj.set. rewrite H. reflexivity. Qed.

(** What an assignment does to the key it names. *)
Lemma get_set_cases (o : jsobject) (k : string) (v : R) :
  Obj.get (Obj.set o k v) k = Some v
  \/ (k = "__proto__" /\ Obj.get o k = None /\ Obj.set o k v = o).
Proof.
  destruct (String.eqb_spec k "__proto__") as [->|N].
  - destruct (Obj.get o "__proto__") as [w|] eqn:E.
    + left. apply get_set_same. right. rewrite E. discriminate.
    + right. split; [reflexivity|]. split; [reflexivity|].
      apply set_proto_ignored, E.
  - left. apply get_set_same. left. exact N.
Qed.

(** A key that an object owns stays owned. *)
Lemma get_set_keeps (o : jsobject) (k k' : string) (v : R) :
  Obj.get o k' <> None -> Obj.get (Obj.set o k v) k' <> None.
Proof.
  intros H. destruct (String.eqb_spec k k') as [->|N].
  - rewrite get_set_same by (right; exact H). discriminate.
  - rewrite get_set_other by exact N. exact H.
Qed.

Lemma set_same_value (o : jsobject) (k : string) (w : R) :
  Obj.get o k = Some w -> Obj.set o k w = o.
Proof.
  intros H. unfold Obj.set. rewrite H. apply replace_same_value, H.
Qed.



(* ------------------------------------------------------------------ *)
(** ** The override merge *)

Lemma mergeKey_keeps d acc key k :
  Obj.get acc k <> None -> Obj.get (mergeKey d acc key) k <> None.
Proof.
  intros H. unfold mergeKey. destruct (Obj.get d key); [|exact H].
  apply get_set_keeps, H.
Qed.

(** A dictionary key ends up with the dictionary's weight, unless it is
    the key [__proto__] and the vocabulary does not own it. *)
Lemma fold_mergeKey_override d keys acc k w :
  Obj.get d k = Some w ->
  k <> "__proto__" \/ Obj.get acc k <> None ->
  In k keys \/ Obj.get acc k = Some w ->
  Obj.get (fold_left (mergeKey d) keys acc) k = Some w.
Proof.
  intros Hd. revert acc.
  induction keys as [|key keys IH]; intros acc Hown H; simpl.
  - destruct H as [[]|H]; exact H.
  - apply IH.
    + destruct Hown as [Hown|Hown]; [left; exact Hown|].
      right. apply mergeKey_keeps, Hown.
    + unfold mergeKey.
      destruct (String.eqb_spec key k) as [->|N].
      * right. rewrite Hd. apply get_set_same, Hown.
      * destruct H as [[E|H]|H]; [contradiction | left; exact H |].
        right. destruct (Obj.get d key); [|exact H].
        rewrite get_set_other by exact N. exact H.
Qed.

(** Any other key keeps its weight. *)
Lemma fold_mergeKey_other d keys acc k :
  ~ In k keys ->
  Obj.get (fold_left (mergeKey d) keys acc) k = Obj.get acc k.
Proof.
  revert acc. induction keys as [|key keys IH]; intros acc H; simpl.
  - reflexivity.
  - rewrite IH by (intros HI; apply H; right; exact HI).
    unfold mergeKey. destruct (Obj.get d key); [|reflexivity].
    apply get_set_other. intros E. apply H. left. exact E.
Qed.

(** The key [__proto__] is never created. *)
Lemma fold_mergeKey_proto d keys acc :
  Obj.get acc "__proto__" = None ->
  Obj.get (fold_left (mergeKey d) keys acc) "__proto__" = None.
Proof.
  revert acc. induction keys as [|key keys IH]; intros acc H; simpl.
  - exact H.
  - apply IH. unfold mergeKey. destruct (Obj.get d key) as [w|]; [|exact H].
    destruct (String.eqb_spec key "__proto__") as [->|N].
    + rewrite set_proto_ignored; exact H.
    + rewrite get_set_other by exact N. exact H.
Qed.

Lemma merged_override d vocabulary k w :
  Obj.get d k = Some w ->
  k <> "__proto__" \/ Obj.get vocabulary k <> None ->
  Obj.get (merged d vocabulary) k = Some w.
Proof.
  intros Hd Hown. apply fold_mergeKey_override; [exact Hd|exact Hown|].
  left. apply get_in_keys. rewrite Hd. discriminate.
Qed.

Lemma merged_other d vocabulary k :
  Obj.get d k = None \/ (k = "__proto__" /\ Obj.get vocabulary k = None) ->
  Obj.get (merged d vocabulary) k = Obj.get vocabulary k.
Proof.
  intros [Hd|[-> Hv]].
  - apply fold_mergeKey_other.
    intros HI. apply get_in_keys in HI. contradiction.
  - rewrite Hv. apply fold_mergeKey_proto, Hv.
Qed.

(* ------------------------------------------------------------------ *)
(** ** The stem table *)

Lemma single_token (tokens : list string) (s : string) :
  tokens = [s] ->
  (List.length tokens =? 1)%nat = true
  /\ PropertyKey (nth_error tokens 0) = s.
Proof. intros ->. split; reflexivity. Qed.

Lemma single_token_inv (tokens : list string) :
  (List.length tokens =? 1)%nat = true ->
  tokens = [PropertyKey (nth_error tokens 0)].
Proof.
  destruct tokens as [|s [|s' rest]]; simpl; try discriminate. reflexivity.
Qed.

(** Where an entry of the stem table comes from: a word of the vocabulary
    with that single stem, and its weight in the vocabulary. *)
Lemma fold_stemKey_origin st v words acc s w :
  Obj.get (fold_left (stemKey st v) words acc) s = Some w ->
  Obj.get acc s = Some w
  \/ exists word, In word words
                  /\ tokenizeAndStem st word = [s]
                  /\ Obj.get v word = Some w.
Proof.
  revert acc. induction words as [|word words IH]; intros acc H; simpl in H.
  - left. exact H.
  - apply IH in H. destruct H as [H|[word' [HI [Ht Hw]]]].
    + unfold stemKey in H.
      destruct (List.length (tokenizeAndStem st word) =? 1)%nat eqn:El;
        [|left; exact H].
      destruct (Obj.get v word) as [weight|] eqn:Ew; [|left; exact H].
      apply single_token_inv in El.
      destruct (String.eqb_spec
                  (PropertyKey (nth_error (tokenizeAndStem st word) 0)) s)
        as [E|N].
      * rewrite E in H, El.
        destruct (get_set_cases acc s weight) as [Hset|[_ [_ Hset]]].
        -- rewrite Hset in H. injection H as <-.
           right. exists word.
           repeat split; [left; reflexivity|exact El|exact Ew].
        -- rewrite Hset in H. left. exact H.
      * rewrite get_set_other in H by exact N. left. exact H.
    + right. exists word'. repeat split; [right; exact HI|exact Ht|exact Hw].
Qed.

(** Words with other stems leave the entry of a stem as it is. *)
Lemma fold_stemKey_other st v words acc s :
  Forall (fun word => tokenizeAndStem st word <> [s]) words ->
  Obj.get (fold_left (stemKey st v) words acc) s = Obj.get acc s.
Proof.
  intros Hall. revert acc.
  induction Hall as [|word words Hword _ IH]; intros acc; simpl.
  - reflexivity.
  - rewrite IH. unfold stemKey.
    destruct (List.length (tokenizeAndStem st word) =? 1)%nat eqn:El;
      [|reflexivity].
    destruct (Obj.get v word); [|reflexivity].
    apply get_set_other. intros E. apply Hword.
    rewrite (single_token_inv _ El), E. reflexivity.
Qed.

(** The stem [__proto__] never gets an entry. *)
Lemma fold_stemKey_proto st v words acc :
  Obj.get acc "__proto__" = None ->
  Obj.get (fold_left (stemKey st v) words acc) "__proto__" = None.
Proof.
  revert acc. induction words as [|word words IH]; intros acc H; simpl.
  - exact H.
  - apply IH. unfold stemKey.
    destruct (List.length (tokenizeAndStem st word) =? 1)%nat; [|exact H].
    destruct (Obj.get v word) as [w|]; [|exact H].
    destruct (String.eqb_spec
                (PropertyKey (nth_error (tokenizeAndStem st word) 0))
                "__proto__") as [->|N].
    + rewrite set_proto_ignored; exact H.
    + rewrite get_set_other by exact N. exact H.
Qed.

(** An entry, once written, is never removed. *)
Lemma fold_stemKey_keeps st v words acc s :
  Obj.get acc s <> None ->
  Obj.get (fold_left (stemKey st v) words acc) s <> None.
Proof.
  revert acc. induction words as [|word words IH]; intros acc H; simpl.
  - exact H.
  - apply IH. unfold stemKey.
    destruct (List.length (tokenizeAndStem st word) =? 1)%nat; [|exact H].
    destruct (Obj.get v word) as [w|]; [|exact H].
    apply get_set_keeps, H.
Qed.

Lemma fold_stemKey_present st v words acc word s :
  In word words ->
  tokenizeAndStem st word = [s] ->
  Obj.get v word <> None ->
  s <> "__proto__" ->
  Obj.get (fold_left (stemKey st v) words acc) s <> None.
Proof.
  revert acc. induction words as [|word0 words IH]; intros acc HI Ht Hw Hs.
  - contradiction.
  - simpl. destruct HI as [->|HI].
    + apply fold_stemKey_keeps. unfold stemKey.
      destruct (single_token _ _ Ht) as [-> ->].
      destruct (Obj.get v word) as [w|]; [|contradiction].
      rewrite get_set_same by (left; exact Hs). discriminate.
    + apply IH; assumption.
Qed.

(** The last word with a stem fixes the stem's entry. *)
Lemma fold_stemKey_last st v before word after acc s w :
  tokenizeAndStem st word = [s] ->
  Obj.get v word = Some w ->
  s <> "__proto__" ->
  Forall (fun word' => tokenizeAndStem st word' <> [s]) after ->
  Obj.get (fold_left (stemKey st v) (before ++ word :: after)%list acc) s
  = Some w.
Proof.
  intros Ht Hw Hs Hafter. rewrite fold_left_app. simpl.
  rewrite (fold_stemKey_other _ _ _ _ _ Hafter).
  unfold stemKey. destruct (single_token _ _ Ht) as [-> ->].
  rewrite Hw. apply get_set_same. left. exact Hs.
Qed.

(** The stem table of a vocabulary: a stem has an entry exactly when it is
    not [__proto__] and some key has it as its one stem, and the entry is
    the weight of the last such key in the order of the keys. *)
Lemma stemmed_entries st v :
  (forall s, Obj.get (stemmed st v) s <> None
             <-> s <> "__proto__"
                 /\ exists word, In word (Obj.keys v)
                                 /\ tokenizeAndStem st word = [s])
  /\ (forall before word after s w,
        Obj.keys v = (before ++ word :: after)%list ->
        tokenizeAndStem st word = [s] ->
        Obj.get v word = Some w ->
        s <> "__proto__" ->
        Forall (fun word' => tokenizeAndStem st word' <> [s]) after ->
        Obj.get (stemmed st v) s = Some w).
Proof.
  split.
  - intros s. split.
    + intros H. split.
      * intros ->. apply H. apply fold_stemKey_proto. reflexivity.
      * destruct (Obj.get (stemmed st v) s) as [w|] eqn:E;
          [|contradiction].
        apply fold_stemKey_origin in E.
        destruct E as [E|[word [HI [Ht _]]]]; [discriminate|].
        exists word. split; assumption.
    + intros [Hs [word [HI Ht]]].
      apply (fold_stemKey_present st v _ [] word s HI Ht); [|exact Hs].
      apply get_in_keys. exact HI.
  - intros before word after s w Hkeys Ht Hw Hs Hafter.
    unfold stemmed. rewrite Hkeys.
    apply fold_stemKey_last; assumption.
Qed.

(* ------------------------------------------------------------------ *)
(** ** Running [addVocabulary] and [loadVocabulary] *)

Lemma set_vocabulary_same this x :
  vocabulary this = x -> set_vocabulary x this = this.
Proof. intros <-. destruct this; reflexivity. Qed.

Lemma set_vocabularyStem_same this x :
  vocabularyStem this = x -> set_vocabularyStem x this = this.
Proof. intros <-. destruct this; reflexivity. Qed.

Lemma addVocabulary_loop d keys this acc :
  dict this = Some d ->
  vocabulary this = Some acc ->
  forEach keys addVocabularyKey tt this
  = (Normal tt, set_vocabulary (Some (fold_left (mergeKey d) keys acc)) this).
Proof.
  revert this acc. induction keys as [|key keys IH]; intros this acc Hd Hv.
  - simpl. unfold ret. rewrite set_vocabulary_same by exact Hv. reflexivity.
  - simpl.
    assert (Hstep :
      addVocabularyKey key tt this
      = (Normal tt, set_vocabulary (Some (mergeKey d acc key)) this)).
    { unfold addVocabularyKey, mergeKey, bind, self. rewrite Hv, Hd. cbn.
      destruct (Obj.get d key).
      - reflexivity.
      - unfold ret. rewrite set_vocabulary_same by exact Hv. reflexivity. }
    rewrite (bind_run _ _ _ _ _ Hstep).
    rewrite (IH _ (mergeKey d acc key)); [reflexivity|exact Hd|reflexivity].
Qed.

Lemma addVocabulary_run this d v :
  dict this = Some d ->
  vocabulary this = Some v ->
  addVocabulary this = (Normal tt, set_vocabulary (Some (merged d v)) this).
Proof.
  intros Hd Hv. unfold addVocabulary, bind, self. rewrite Hd.
  apply addVocabulary_loop; assumption.
Qed.

Lemma stemWord_loop st v words this acc :
  stemmer this = Some st ->
  vocabulary this = Some v ->
  vocabularyStem this = Some acc ->
  forEach words stemWord tt this
  = (Normal tt,
     set_vocabularyStem (Some (fold_left (stemKey st v) words acc)) this).
Proof.
  revert this acc. induction words as [|word words IH];
    intros this acc Hst Hv Hs.
  - simpl. unfold ret. rewrite set_vocabularyStem_same by exact Hs.
    reflexivity.
  - simpl.
    assert (Hstep :
      stemWord word tt this
      = (Normal tt, set_vocabularyStem (Some (stemKey st v acc word)) this)).
    { unfold stemWord, stemKey, bind, self. rewrite Hst. cbn.
      destruct (List.length (tokenizeAndStem st word) =? 1)%nat.
      - rewrite Hs, Hv. cbn. destruct (Obj.get v word).
        + reflexivity.
        + unfold ret. rewrite set_vocabularyStem_same by exact Hs.
          reflexivity.
      - unfold ret. rewrite set_vocabularyStem_same by exact Hs.
        reflexivity. }
    rewrite (bind_run _ _ _ _ _ Hstep).
    rewrite (IH _ (stemKey st v acc word)); [reflexivity|exact Hst|exact Hv|reflexivity].
Qed.

(** Laws of the monad, applied to a state. *)
Lemma bind_self {B} (k : SentimentAnalyzer -> M B) s :
  bind self k s = k s s.
Proof. reflexivity. Qed.

Lemma bind_assign {B} f (k : unit -> M B) s :
  bind (assign f) k s = k tt (f s).
Proof. reflexivity. Qed.

Lemma bind_ret {A B} (a : A) (k : A -> M B) s :
  bind (ret a) k s = k a s.
Proof. reflexivity. Qed.

Lemma bind_bind {A B C} (m : M A) (k1 : A -> M B) (k2 : B -> M C) s :
  bind (bind m k1) k2 s = bind m (fun a => bind (k1 a) k2) s.
Proof. unfold bind. destruct (m s) as [[a|e] s']; reflexivity. Qed.

Section Load.

Variable readVocabulary : string -> option jsobject.
Variable requireWords : string -> option (list string).
Variable requirePunctuation : string -> option (list string).

(** What [loadVocabulary] leaves: the vocabulary of the file with the
    dictionary merged in, the stem table of that vocabulary, and the
    negation tables (empty when their file gives none). *)
Lemma loadVocabulary_run this :
  let name :=
    "./languages/" ++ Settings.language (settings this) ++ "/"
      ++ Settings.type (settings this) ++ "_"
      ++ Settings.language (settings this) ++ ".json" in
  exists this',
    loadVocabulary readVocabulary requireWords requirePunctuation this
    = (Normal tt, this')
    /\ dict this' = dict this
    /\ stemmer this' = stemmer this
    /\ settings this' = settings this
    /\ vocabulary this'
       = match readVocabulary name with
         | Some base =>
             Some match dict this with
                  | Some d => merged d base
                  | None => base
                  end
         | None => None
         end
    /\ vocabularyStem this'
       = match vocabulary this' with
         | Some v =>
             Some match stemmer this with
                  | Some st => stemmed st v
                  | None => []
                  end
         | None => vocabularyStem this
         end
    /\ negations this'
       = match requireWords
                 ("./languages/" ++ Settings.language (settings this)
                    ++ "/negations_" ++ Settings.language (settings this)
                    ++ ".json") with
         | Some words => words
         | None => []
         end
    /\ negationPunctuations this'
       = match requirePunctuation
                 ("./languages/" ++ Settings.language (settings this)
                    ++ "/negationPunctuations_"
                    ++ Settings.language (settings this) ++ ".json") with
         | Some punctuation => punctuation
         | None => []
         end.
Proof.
  cbv zeta. unfold loadVocabulary.
  rewrite bind_self, !bind_assign, bind_self, bind_assign, bind_self.
  cbn [vocabulary set_vocabulary vocabularyFileName
         set_negationPunctuationFileName set_negationFileName
         set_vocabularyFileName dict stemmer].
  destruct (readVocabulary _) as [base|].
  - match goal with |- context [bind _ _ ?s = _] => set (s1 := s) end.
    set (mv := match dict this with
               | Some d => merged d base
               | None => base
               end).
    set (stems := match stemmer this with
                  | Some st => stemmed st mv
                  | None => []
                  end).
    assert (Hadd :
      match dict this with
      | Some _ => addVocabulary
      | None => ret tt
      end s1 = (Normal tt, set_vocabulary (Some mv) s1)).
    { subst mv. destruct (dict this) as [d|] eqn:Hd.
      - apply addVocabulary_run; [exact Hd|reflexivity].
      - reflexivity. }
    assert (Hstem :
      match stemmer this with
      | Some _ =>
          vocabulary0 <-
            member (vocabulary
                      (set_vocabularyStem (Some [])
                         (set_vocabulary (Some mv) s1))) ;;
          forEach (Obj.keys vocabulary0) stemWord tt
      | None => ret tt
      end (set_vocabularyStem (Some []) (set_vocabulary (Some mv) s1))
      = (Normal tt, set_vocabularyStem (Some stems) (set_vocabulary (Some mv) s1))).
    { subst stems. destruct (stemmer this) as [st|] eqn:Hst.
      - cbn [vocabulary set_vocabularyStem set_vocabulary member].
        rewrite bind_ret.
        rewrite (stemWord_loop st mv (Obj.keys mv) _ []);
          [reflexivity|exact Hst|reflexivity|reflexivity].
      - reflexivity. }
    rewrite !bind_bind. rewrite (bind_run _ _ _ _ _ Hadd).
    cbv beta. rewrite !bind_bind, bind_assign. cbv beta.
    rewrite !bind_bind, bind_self. cbv beta.
    rewrite !bind_bind.
    cbn [stemmer set_vocabularyStem set_vocabulary s1
           set_negationPunctuationFileName set_negationFileName
           set_vocabularyFileName].
    rewrite (bind_run _ _ _ _ _ Hstem). cbv beta.
    rewrite !bind_bind, bind_self. cbv beta.
    cbn [vocabulary set_vocabularyStem set_vocabulary].
    match goal with
    | |- context [if ?b then _ else _] => destruct b
    end.
    + rewrite bind_assign, bind_self, bind_assign, bind_self.
      eexists. split; [reflexivity|]. cbn. repeat split.
    + rewrite bind_ret, bind_self, bind_assign, bind_self.
      eexists. split; [reflexivity|]. cbn. repeat split.
  - rewrite bind_ret, bind_self, bind_assign, bind_self.
    eexists. split; [reflexivity|]. cbn. repeat split.
Qed.
(** A failed read leaves the analyzer without a vocabulary. *)
Lemma loadVocabulary_read_failure this :
  readVocabulary
    ("./languages/" ++ Settings.language (settings this) ++ "/"
       ++ Settings.type (settings this) ++ "_"
       ++ Settings.language (settings this) ++ ".json") = None ->
  vocabulary
    (snd (loadVocabulary readVocabulary requireWords requirePunctuation this))
  = None.
Proof.
  intros Hr. destruct (loadVocabulary_run this) as [this' [Hrun H]].
  rewrite Hrun. simpl. rewrite Hr in H. apply H.
Qed.

(** C5, as the code has it.  With a vocabulary read and an override
    dictionary, [loadVocabulary] writes every key of the dictionary into
    the vocabulary (replacing the weight of a key that the file has, adding
    the others, keeping every other key), except that the key [__proto__]
    is ignored when the file does not hold it; and it derives the stem
    table from the vocabulary after this merge.  So the exact lookup of an
    overridden word gives the override weight; every entry of the stem
    table is the weight, after the merge, of a key with exactly that one
    stem; and the entry of a stem other than [__proto__] is the weight,
    after the merge, of the last key of the vocabulary that has it as its
    one stem: the override weight, for an overridden word that no key with
    the same stem follows. *)
Theorem override_merge this base d :
  readVocabulary
    ("./languages/" ++ Settings.language (settings this) ++ "/"
       ++ Settings.type (settings this) ++ "_"
       ++ Settings.language (settings this) ++ ".json") = Some base ->
  dict this = Some d ->
  exists this' v stems,
    loadVocabulary readVocabulary requireWords requirePunctuation this
    = (Normal tt, this')
    /\ vocabulary this' = Some v
    /\ vocabularyStem this' = Some stems
    /\ (forall k w,
          Obj.get d k = Some w ->
          k <> "__proto__" \/ Obj.get base k <> None ->
          Obj.get v k = Some w)
    /\ (forall k,
          Obj.get d k = None
          \/ (k = "__proto__" /\ Obj.get base k = None) ->
          Obj.get v k = Obj.get base k)
    /\ stems = match stemmer this with
               | Some st => stemmed st v
               | None => []
               end
    /\ (forall st s w,
          stemmer this = Some st ->
          Obj.get stems s = Some w ->
          exists word, In word (Obj.keys v)
                       /\ tokenizeAndStem st word = [s]
                       /\ Obj.get v word = Some w)
    /\ (forall st before word after s w,
          stemmer this = Some st ->
          Obj.keys v = (before ++ word :: after)%list ->
          tokenizeAndStem st word = [s] ->
          s <> "__proto__" ->
          Obj.get v word = Some w ->
          Forall (fun word' => tokenizeAndStem st word' <> [s]) after ->
          Obj.get stems s = Some w).
Proof.
  intros Hr Hd.
  destruct (loadVocabulary_run this)
    as [this' [Hrun [_ [_ [_ [Hv [Hs _]]]]]]].
  cbv zeta in Hv. rewrite Hr, Hd in Hv. rewrite Hv in Hs.
  exists this', (merged d base).
  eexists. split; [exact Hrun|]. split; [exact Hv|]. split; [exact Hs|].
  split; [intros k w; apply merged_override|].
  split; [intros k; apply merged_other|].
  split; [reflexivity|]. split.
  - intros st s w Hst Hget. rewrite Hst in Hget. unfold stemmed in Hget.
    apply fold_stemKey_origin in Hget.
    destruct Hget as [Hget|[word [HI [Ht Hw]]]]; [discriminate|].
    exists word. repeat split; assumption.
  - intros st before word after s w Hst Hkeys Ht Hproto Hw Hafter.
    rewrite Hst.
    apply (proj2 (stemmed_entries st (merged d base))
             before word after s w); assumption.
Qed.

End Load.

(** C3. When no vocabulary was loaded ([this.vocabulary] is undefined,
    which is how [loadVocabulary] leaves it when reading the file fails),
    [getSentiment] returns for every utterance, without throwing, the
    object with score 0, numHits 0, comparative 0, no range (and no
    wordScores), and numWords the number of tokens. *)
Theorem getSentiment_without_vocabulary
  toLowerCase readVocabulary requireWords requirePunctuation this utterance :
  (vocabulary this = None ->
   getSentiment toLowerCase utterance this
   = (Normal
        {| Result.score := 0;
           Result.numWords := List.length (wordsOf this utterance);
           Result.numHits := 0;
           Result.range := None;
           Result.comparative := Num 0;
           Result.type := Settings.type (settings this);
           Result.language := Settings.language (settings this);
           Result.wordScores := None |},
      this))
  /\ (readVocabulary
        ("./languages/" ++ Settings.language (settings this) ++ "/"
           ++ Settings.type (settings this) ++ "_"
           ++ Settings.language (settings this) ++ ".json") = None ->
      let this' :=
        snd (loadVocabulary readVocabulary requireWords requirePunctuation
               this) in
      vocabulary this' = None
      /\ getSentiment toLowerCase utterance this'
         = (Normal
              {| Result.score := 0;
                 Result.numWords := List.length (wordsOf this' utterance);
                 Result.numHits := 0;
                 Result.range := None;
                 Result.comparative := Num 0;
                 Result.type := Settings.type (settings this');
                 Result.language := Settings.language (settings this');
                 Result.wordScores := None |},
            this')).
Proof.
  split.
  - intros Hv. unfold getSentiment, bind, self. rewrite Hv.
    destruct utterance; reflexivity.
  - intros Hr. cbv zeta.
    pose proof (loadVocabulary_read_failure readVocabulary requireWords
                  requirePunctuation this Hr) as Hv.
    split; [exact Hv|].
    unfold getSentiment, bind, self. rewrite Hv.
    destruct utterance; reflexivity.
Qed.

(* ------------------------------------------------------------------ *)
(** ** The methods on the example analyzer *)

Lemma example_loaded :
  loadVocabulary Example.readVocabulary Example.requireWords
    Example.requirePunctuation Example.unloaded
  = (Normal tt,
     {| settings := Example.config;
        dict := Some Example.override;
        stemmer := Some Example.pluralStemmer;
        vocabularyFileName := "./languages/en/afinn_en.json";
        negationFileName := "./languages/en/negations_en.json";
        negationPunctuationFileName :=
          "./languages/en/negationPunctuations_en.json";
        vocabulary := Some [("good", 5%R); ("goods", 1%R); ("bad", (-4)%R)];
        vocabularyStem := Some [("good", 1%R); ("bad", (-4)%R)];
        negations := ["not"; "no"];
        negationPunctuations := [","; "."];
        loadedFiles := ["./languages/en/afinn_en.json"] |}).
Proof. reflexivity. Qed.

Lemma later_loaded :
  loadVocabulary Example.readVocabulary Example.requireWords
    Example.requirePunctuation (Sample.withDict Sample.laterOverride)
  = (Normal tt,
     {| settings := Example.config;
        dict := Some Sample.laterOverride;
        stemmer := Some Example.pluralStemmer;
        vocabularyFileName := "./languages/en/afinn_en.json";
        negationFileName := "./languages/en/negations_en.json";
        negationPunctuationFileName :=
          "./languages/en/negationPunctuations_en.json";
        vocabulary := Some [("good", 3%R); ("goods", 7%R)];
        vocabularyStem := Some [("good", 7%R)];
        negations := ["not"; "no"];
        negationPunctuations := [","; "."];
        loadedFiles := ["./languages/en/afinn_en.json"] |}).
Proof. reflexivity. Qed.

Lemma proto_loaded :
  loadVocabulary Example.readVocabulary Example.requireWords
    Example.requirePunctuation (Sample.withDict Sample.protoOverride)
  = (Normal tt,
     {| settings := Example.config;
        dict := Some Sample.protoOverride;
        stemmer := Some Example.pluralStemmer;
        vocabularyFileName := "./languages/en/afinn_en.json";
        negationFileName := "./languages/en/negations_en.json";
        negationPunctuationFileName :=
          "./languages/en/negationPunctuations_en.json";
        vocabulary := Some [("good", 3%R); ("goods", 1%R)];
        vocabularyStem := Some [("good", 1%R)];
        negations := ["not"; "no"];
        negationPunctuations := [","; "."];
        loadedFiles := ["./languages/en/afinn_en.json"] |}).
Proof. reflexivity. Qed.

Lemma protoStem_loaded :
  loadVocabulary Example.readVocabulary Example.requireWords
    Example.requirePunctuation (Sample.withDict Sample.protoStemOverride)
  = (Normal tt,
     {| settings := Example.config;
        dict := Some Sample.protoStemOverride;
        stemmer := Some Example.pluralStemmer;
        vocabularyFileName := "./languages/en/afinn_en.json";
        negationFileName := "./languages/en/negations_en.json";
        negationPunctuationFileName :=
          "./languages/en/negationPunctuations_en.json";
        vocabulary :=
          Some [("good", 3%R); ("goods", 1%R); ("__proto__s", 2%R)];
        vocabularyStem := Some [("good", 1%R)];
        negations := ["not"; "no"];
        negationPunctuations := [","; "."];
        loadedFiles := ["./languages/en/afinn_en.json"] |}).
Proof. reflexivity. Qed.

(** A new key that is an array index is enumerated first: with the
    dictionary [{1: 7}] the vocabulary has the keys 1, good, goods. *)
Lemma index_loaded :
  loadVocabulary Example.readVocabulary Example.requireWords
    Example.requirePunctuation (Sample.withDict Sample.indexOverride)
  = (Normal tt,
     {| settings := Example.config;
        dict := Some Sample.indexOverride;
        stemmer := Some Example.pluralStemmer;
        vocabularyFileName := "./languages/en/afinn_en.json";
        negationFileName := "./languages/en/negations_en.json";
        negationPunctuationFileName :=
          "./languages/en/negationPunctuations_en.json";
        vocabulary := Some [("1", 7%R); ("good", 3%R); ("goods", 1%R)];
        vocabularyStem := Some [("1", 7%R); ("good", 1%R)];
        negations := ["not"; "no"];
        negationPunctuations := [","; "."];
        loadedFiles := ["./languages/en/afinn_en.json"] |}).
Proof. reflexivity. Qed.

(** C5 as stated fails in three ways.  Two words share a stem: the file
    has "good" and "goods", the dictionary overrides "good" with 5, and
    after [loadVocabulary] the stem table gives the stem "good" the weight
    1 of "goods", the later key.  The dictionary owns the key [__proto__],
    which the file does not hold: the assignment is ignored and the
    vocabulary has no such key.  The dictionary brings a word whose one
    stem is [__proto__]: the stem table gets no entry for it. *)
Lemma override_not_reflected :
  match
    vocabularyStem
      (snd (loadVocabulary Example.readVocabulary Example.requireWords
              Example.requirePunctuation Example.unloaded))
  with
  | Some stems =>
      ~ stemsReflectOverride Example.pluralStemmer Example.override stems
  | None => False
  end
  /\ match
       vocabulary
         (snd (loadVocabulary Example.readVocabulary Example.requireWords
                 Example.requirePunctuation
                 (Sample.withDict Sample.protoOverride)))
     with
     | Some v => ~ overrideWritten Sample.protoOverride v
     | None => False
     end
  /\ match
       vocabularyStem
         (snd (loadVocabulary Example.readVocabulary Example.requireWords
                 Example.requirePunctuation
                 (Sample.withDict Sample.protoStemOverride)))
     with
     | Some stems =>
         ~ stemsReflectOverride Example.pluralStemmer
             Sample.protoStemOverride stems
     | None => False
     end.
Proof.
  rewrite example_loaded, proto_loaded, protoStem_loaded. simpl.
  split; [|split].
  - intros H. specialize (H "good" 5%R "good" eq_refl eq_refl).
    simpl in H. injection H as H. lra.
  - intros H. specialize (H "__proto__" 5%R eq_refl). discriminate.
  - intros H. specialize (H "__proto__s" 2%R "__proto__" eq_refl eq_refl).
    discriminate.
Qed.

(** C1, on the code.  The example analyzer is in a state that
    [loadVocabulary] produces (its stem table is the one derived from its
    vocabulary).  The token "goods" misses the negators, the negation
    punctuations and the vocabulary; the stemmer gives the one stem "good",
    which the stem table holds with weight 3; yet [getSentiment] counts no
    hit, adds nothing to the score and records no word score.  The token
    "bx" misses the three tables too and its one stem "bx" has no entry in
    the stem table, yet it is a hit with the weight 2 of the key "b", its
    first character, and a word score of NaN. *)
Theorem stem_fallback_unreached :
  let this := Example.analyzer in
  let lower := Example.toLowerCase in
  let lexicon := [("good", 3%R); ("b", 2%R)] in
  (vocabulary this = Some lexicon
   /\ vocabularyStem this = Some lexicon
   /\ stemmer this = Some Example.pluralStemmer
   /\ stemmed Example.pluralStemmer lexicon = lexicon)
  /\ (indexOf (negations this) (lower "goods") = (-1)%Z
      /\ indexOf (negationPunctuations this) (lower "goods") = (-1)%Z
      /\ Obj.get lexicon (lower "goods") = None
      /\ tokenizeAndStem Example.pluralStemmer (lower "goods") = ["good"]
      /\ Obj.get lexicon "good" = Some 3%R)
  /\ (exists result,
        getSentiment lower (Tokens ["goods"]) this = (Normal result, this)
        /\ Result.score result = 0%R
        /\ Result.numHits result = 0%nat
        /\ Result.wordScores result = Some [])
  /\ (indexOf (negations this) (lower "bx") = (-1)%Z
      /\ indexOf (negationPunctuations this) (lower "bx") = (-1)%Z
      /\ Obj.get lexicon (lower "bx") = None
      /\ tokenizeAndStem Example.pluralStemmer (lower "bx") = ["bx"]
      /\ Obj.get lexicon "bx" = None)
  /\ (exists result,
        getSentiment lower (Tokens ["bx"]) this = (Normal result, this)
        /\ Result.score result = 2%R
        /\ Result.numHits result = 1%nat
        /\ Result.wordScores result
           = Some [{| WordScore.word := Some "b";
                      WordScore.score := NaN |}]).
Proof.
  cbv zeta. split; [|split; [|split; [|split]]].
  - repeat split.
  - repeat split.
  - eexists. split; [apply getSentiment_run; discriminate|].
    repeat split.
  - repeat split.
  - eexists. split; [apply getSentiment_run; discriminate|].
    split; [change (0 + 1 * 2 = 2)%R; lra | repeat split].
Qed.

(* ------------------------------------------------------------------ *)
(** ** The theorems at work on the example analyzer *)

(** The spec's example of negation: "not" is a negator, "good" weighs 3. *)
Example not_good :
  exists result,
    getSentiment Example.toLowerCase (Text "Not GOOD") Example.analyzer
    = (Normal result, Example.analyzer)
    /\ Result.score result = (-3)%R
    /\ Result.numWords result = 2%nat
    /\ Result.numHits result = 2%nat
    /\ Result.wordScores result
       = Some [{| WordScore.word := Some "good";
                  WordScore.score := Num (-1 * 3) |}].
Proof.
  eexists. split; [apply getSentiment_run; discriminate|].
  split; [change (0 + -1 * 3 = -3)%R; lra | repeat split].
Qed.

Lemma getSentiment_empty_witness :
  vocabulary Example.analyzer <> None
  /\ vocabulary Example.unsupported = None
  /\ (exists result,
        getSentiment Example.toLowerCase (Tokens []) Example.analyzer
        = (Normal result, Example.analyzer)
        /\ Result.comparative result = NaN)
  /\ (exists result,
        getSentiment Example.toLowerCase (Tokens []) Example.unsupported
        = (Normal result, Example.unsupported)
        /\ Result.comparative result = Num 0).
Proof.
  split; [discriminate|]. split; [reflexivity|]. split.
  - destruct (getSentiment_empty Example.toLowerCase Example.analyzer)
      as [result [Hrun [_ [_ [_ [_ Hnan]]]]]].
    exists result. split; [exact Hrun | apply Hnan; discriminate].
  - destruct (getSentiment_empty Example.toLowerCase Example.unsupported)
      as [result [Hrun [_ [_ [_ [Hzero _]]]]]].
    exists result. split; [exact Hrun | apply Hzero; reflexivity].
Defined.

Lemma getSentiment_without_vocabulary_witness :
  vocabulary Example.unsupported = None
  /\ getSentiment Example.toLowerCase (Tokens ["not"; "good"])
       Example.unsupported
     = (Normal
          {| Result.score := 0;
             Result.numWords := 2;
             Result.numHits := 0;
             Result.range := None;
             Result.comparative := Num 0;
             Result.type := "afinn";
             Result.language := "en";
             Result.wordScores := None |},
        Example.unsupported)
  /\ vocabulary
       (snd (loadVocabulary (fun _ => None) Example.requireWords
               Example.requirePunctuation Example.unloaded)) = None.
Proof.
  destruct (getSentiment_without_vocabulary Example.toLowerCase
              (fun _ => None) Example.requireWords
              Example.requirePunctuation Example.unsupported
              (Tokens ["not"; "good"])) as [Hnone _].
  destruct (getSentiment_without_vocabulary Example.toLowerCase
              (fun _ => None) Example.requireWords
              Example.requirePunctuation Example.unloaded
              (Tokens ["not"; "good"])) as [_ Hload].
  split; [reflexivity|]. split.
  - apply Hnone. reflexivity.
  - apply (Hload eq_refl).
Defined.

Lemma negation_tokens_witness :
  let this := Example.analyzer in
  let lower := Example.toLowerCase in
  (isNegator lower this "Not"
   /\ Scan.negator (scan lower this (["good"] ++ ["Not"])) = (-1)%R)
  /\ (~ isNegator lower this ","
      /\ isNegationPunctuation lower this ","
      /\ Scan.negator (scan lower this (["not"; "good"] ++ [","])) = 1%R)
  /\ (~ isNegator lower this "good"
      /\ ~ isNegationPunctuation lower this "good"
      /\ Scan.negator (scan lower this (["not"] ++ ["good"]))
         = Scan.negator (scan lower this ["not"])).
Proof.
  cbv zeta.
  assert (N1 : isNegator Example.toLowerCase Example.analyzer "Not")
    by (unfold isNegator; simpl; discriminate).
  assert (N2 : ~ isNegator Example.toLowerCase Example.analyzer ",")
    by (unfold isNegator; simpl; intros H; apply H; reflexivity).
  assert (P2 : isNegationPunctuation Example.toLowerCase
                 Example.analyzer ",")
    by (unfold isNegationPunctuation; simpl; discriminate).
  assert (N3 : ~ isNegator Example.toLowerCase Example.analyzer "good")
    by (unfold isNegator; simpl; intros H; apply H; reflexivity).
  assert (P3 : ~ isNegationPunctuation Example.toLowerCase
                 Example.analyzer "good")
    by (unfold isNegationPunctuation; simpl; intros H; apply H; reflexivity).
  split; [|split].
  - split; [exact N1|].
    destruct (negation_tokens Example.toLowerCase Example.analyzer
                ["good"] "Not") as [_ [H _]].
    apply H. exact N1.
  - split; [exact N2|]. split; [exact P2|].
    destruct (negation_tokens Example.toLowerCase Example.analyzer
                ["not"; "good"] ",") as [_ [_ [H _]]].
    apply H; assumption.
  - split; [exact N3|]. split; [exact P3|].
    destruct (negation_tokens Example.toLowerCase Example.analyzer
                ["not"] "good") as [_ [_ [_ [H _]]]].
    apply H; assumption.
Defined.

Lemma override_merge_witness :
  Example.readVocabulary "./languages/en/afinn_en.json" = Some Example.base
  /\ dict Example.unloaded = Some Example.override
  /\ dict (Sample.withDict Sample.laterOverride) = Some Sample.laterOverride
  /\ (exists this' v stems,
        loadVocabulary Example.readVocabulary Example.requireWords
          Example.requirePunctuation Example.unloaded
        = (Normal tt, this')
        /\ vocabulary this' = Some v
        /\ vocabularyStem this' = Some stems
        /\ Obj.get v "good" = Some 5%R
        /\ Obj.get v "goods" = Some 1%R
        /\ Obj.get stems "bad" = Some (-4)%R)
  /\ (exists this' v stems,
        loadVocabulary Example.readVocabulary Example.requireWords
          Example.requirePunctuation (Sample.withDict Sample.laterOverride)
        = (Normal tt, this')
        /\ vocabulary this' = Some v
        /\ vocabularyStem this' = Some stems
        /\ Obj.get v "goods" = Some 7%R
        /\ Obj.get stems "good" = Some 7%R).
Proof.
  split; [reflexivity|]. split; [reflexivity|]. split; [reflexivity|].
  split.
  - destruct (override_merge Example.readVocabulary Example.requireWords
                Example.requirePunctuation Example.unloaded
                Example.base Example.override eq_refl eq_refl)
      as [this' [v [stems [Hrun [Hv [Hs [Hover [Hkeep [_ [_ Hlast]]]]]]]]]].
    exists this', v, stems.
    split; [exact Hrun|]. split; [exact Hv|]. split; [exact Hs|].
    split; [apply Hover; [reflexivity | left; discriminate]|].
    split; [rewrite Hkeep; [reflexivity | left; reflexivity]|].
    apply (Hlast Example.pluralStemmer ["good"; "goods"] "bad" [] "bad");
      try reflexivity.
    + rewrite example_loaded in Hrun. injection Hrun as <-.
      simpl in Hv. injection Hv as <-. reflexivity.
    + discriminate.
    + apply Hover; [reflexivity | left; discriminate].
    + constructor.
  - destruct (override_merge Example.readVocabulary Example.requireWords
                Example.requirePunctuation
                (Sample.withDict Sample.laterOverride)
                Example.base Sample.laterOverride eq_refl eq_refl)
      as [this' [v [stems [Hrun [Hv [Hs [Hover [_ [_ [_ Hlast]]]]]]]]]].
    exists this', v, stems.
    split; [exact Hrun|]. split; [exact Hv|]. split; [exact Hs|].
    split; [apply Hover; [reflexivity | left; discriminate]|].
    apply (Hlast Example.pluralStemmer ["good"] "goods" [] "good");
      try reflexivity.
    + rewrite later_loaded in Hrun. injection Hrun as <-.
      simpl in Hv. injection Hv as <-. reflexivity.
    + discriminate.
    + apply Hover; [reflexivity | left; discriminate].
    + constructor.
Defined.

Lemma negator_is_sign_witness :
  let this := Example.analyzer in
  let lower := Example.toLowerCase in
  vocabulary this <> None
  /\ (2 <= List.length ["not"; "No"])%nat
  /\ Forall (isNegator lower this) ["not"; "No"]
  /\ forEach ["good"; "not"; "No"; "good"] (scoreToken lower) Scan.init this
     = (Normal (scan lower this ["good"; "not"; "No"; "good"]), this)
  /\ Scan.negator (scan lower this (["good"] ++ ["not"; "No"])) = (-1)%R.
Proof.
  cbv zeta.
  assert (Hall : Forall (isNegator Example.toLowerCase Example.analyzer)
                   ["not"; "No"])
    by (repeat constructor; unfold isNegator; simpl; discriminate).
  split; [discriminate|]. split; [simpl; lia|]. split; [exact Hall|].
  destruct (negator_is_sign Example.toLowerCase Example.analyzer
              ["good"; "not"; "No"; "good"]) as [Hrun [_ Hneg]].
  split; [apply Hrun; discriminate|].
  apply (Hneg ["good"] ["not"; "No"] ["good"]);
    [reflexivity | simpl; lia | exact Hall].
Defined.

(* ================================================================== *)
(** * Further properties of the methods *)

(* ------------------------------------------------------------------ *)
(** ** The callback on a word *)

Section WordTokens.

Variable toLowerCase : string -> string.

Lemma scanStep_no_vocabulary this vars token :
  ~ isNegator toLowerCase this token ->
  ~ isNegationPunctuation toLowerCase this token ->
  vocabulary this = None ->
  scanStep toLowerCase this vars token = vars.
Proof.
  intros N P Hv. apply indexOf_test_false in N, P.
  unfold scanStep, scoreToken, bind, self. rewrite N, P, Hv. reflexivity.
Qed.

(** X1. An exact entry of the lower-cased token: the token adds the multiplier
    times the weight to the score, is a hit, and gets a word score under
    its lower-cased form; the multiplier stays. *)
Theorem exact_entry_scored this words token v weight :
  vocabulary this = Some v ->
  ~ isNegator toLowerCase this token ->
  ~ isNegationPunctuation toLowerCase this token ->
  Obj.get v (toLowerCase token) = Some weight ->
  let before := scan toLowerCase this words in
  let after := scan toLowerCase this (words ++ [token]) in
  Scan.score after
  = (Scan.score before + Scan.negator before * weight)%R
  /\ Scan.nrHits after = (Scan.nrHits before + 1)%nat
  /\ Scan.negator after = Scan.negator before
  /\ Scan.wordScores after
     = (Scan.wordScores before ++
        [{| WordScore.word := Some (toLowerCase token);
            WordScore.score := Num (Scan.negator before * weight) |}])%list.
Proof.
  intros Hv N P Hw. cbv zeta.
  rewrite scan_snoc, (scanStep_word _ _ _ _ _ N P Hv), Hw.
  repeat split.
Qed.

(** X2. A token without an exact entry, whose lower-cased form is none of
    the names that every object inherits.  Without a stemmer, or when the
    first character of the token is no key of the vocabulary, the callback
    changes nothing, whatever the stems of the token are.  With a stemmer
    and an entry for the first character, the token is a hit with that
    entry's weight, and its word score is NaN under the first character. *)
Theorem unmatched_token this words token v :
  vocabulary this = Some v ->
  ~ isNegator toLowerCase this token ->
  ~ isNegationPunctuation toLowerCase this token ->
  Obj.get v (toLowerCase token) = None ->
  ~ In (toLowerCase token) inheritedNames ->
  let before := scan toLowerCase this words in
  let after := scan toLowerCase this (words ++ [token]) in
  (stemmer this = None \/ Obj.get v (PropertyKey (charAt0 token)) = None ->
   after = before)
  /\ (forall weight0,
        stemmer this <> None ->
        Obj.get v (PropertyKey (charAt0 token)) = Some weight0 ->
        Scan.score after
        = (Scan.score before + Scan.negator before * weight0)%R
        /\ Scan.nrHits after = (Scan.nrHits before + 1)%nat
        /\ Scan.negator after = Scan.negator before
        /\ Scan.wordScores after
           = (Scan.wordScores before ++
              [{| WordScore.word := charAt0 token;
                  WordScore.score := NaN |}])%list).
Proof.
  intros Hv N P Hw _. cbv zeta.
  rewrite scan_snoc, (scanStep_word _ _ _ _ _ N P Hv), Hw. split.
  - intros [Hst|H0].
    + rewrite Hst. reflexivity.
    + rewrite H0. destruct (stemmer this); reflexivity.
  - intros weight0 Hst H0. rewrite H0.
    destruct (stemmer this); [repeat split | contradiction].
Qed.

(** X3. [getSentiment] never reads the stem table: with any other table in
    its place the result is the same. *)
Theorem stem_table_unused this stems utterance :
  fst (getSentiment toLowerCase utterance (set_vocabularyStem stems this))
  = fst (getSentiment toLowerCase utterance this).
Proof.
  destruct (vocabulary this) as [v|] eqn:Hv.
  - rewrite !getSentiment_run by (simpl; rewrite ?Hv; discriminate).
    assert (E : forall words vars,
               fold_left (scanStep toLowerCase
                            (set_vocabularyStem stems this)) words vars
               = fold_left (scanStep toLowerCase this) words vars).
    { induction words as [|token words IH]; intros vars; simpl.
      - reflexivity.
      - rewrite IH. f_equal. unfold scanStep.
        rewrite scoreToken_ignores_stem_table. reflexivity. }
    simpl. unfold scan. rewrite E.
    destruct utterance; reflexivity.
  - rewrite !getSentiment_degraded by (simpl; exact Hv).
    destruct utterance; reflexivity.
Qed.

End WordTokens.

(* ------------------------------------------------------------------ *)
(** ** The outcomes of a call of the callback *)

Section Outcomes.

Variable toLowerCase : string -> string.

(** The five outcomes of the callback. *)
Lemma scanStep_cases this vars token :
  (isNegator toLowerCase this token
   /\ scanStep toLowerCase this vars token
      = {| Scan.score := Scan.score vars; Scan.negator := -1;
           Scan.nrHits := Scan.nrHits vars + 1;
           Scan.wordScores := Scan.wordScores vars |})
  \/ (~ isNegator toLowerCase this token
      /\ isNegationPunctuation toLowerCase this token
      /\ scanStep toLowerCase this vars token
         = {| Scan.score := Scan.score vars; Scan.negator := 1;
              Scan.nrHits := Scan.nrHits vars;
              Scan.wordScores := Scan.wordScores vars |})
  \/ (~ isNegator toLowerCase this token
      /\ ~ isNegationPunctuation toLowerCase this token
      /\ ((forall v, vocabulary this = Some v ->
                     Obj.get v (toLowerCase token) = None)
          /\ scanStep toLowerCase this vars token = vars
          \/ (exists v weight,
                vocabulary this = Some v
                /\ Obj.get v (toLowerCase token) = Some weight
                /\ scanStep toLowerCase this vars token
                   = {| Scan.score :=
                          Scan.score vars + Scan.negator vars * weight;
                        Scan.negator := Scan.negator vars;
                        Scan.nrHits := Scan.nrHits vars + 1;
                        Scan.wordScores :=
                          (Scan.wordScores vars ++
                           [{| WordScore.word := Some (toLowerCase token);
                               WordScore.score :=
                                 Num (Scan.negator vars * weight) |}])%list
                     |})
          \/ (exists v weight0,
                vocabulary this = Some v
                /\ stemmer this <> None
                /\ Obj.get v (toLowerCase token) = None
                /\ Obj.get v (PropertyKey (charAt0 token)) = Some weight0
                /\ scanStep toLowerCase this vars token
                   = {| Scan.score :=
                          Scan.score vars + Scan.negator vars * weight0;
                        Scan.negator := Scan.negator vars;
                        Scan.nrHits := Scan.nrHits vars + 1;
                        Scan.wordScores :=
                          (Scan.wordScores vars ++
                           [{| WordScore.word := charAt0 token;
                               WordScore.score := NaN |}])%list |}))).
Proof.
  destruct (isNegator_dec toLowerCase this token) as [N|N].
  { left. split; [exact N | apply scanStep_negator; exact N]. }
  destruct (isNegationPunctuation_dec toLowerCase this token) as [P|P].
  { right; left. split; [exact N|]. split; [exact P|].
    apply scanStep_punctuation; assumption. }
  right; right. split; [exact N|]. split; [exact P|].
  destruct (vocabulary this) as [v|] eqn:Hv.
  - rewrite (scanStep_word toLowerCase this vars token v N P Hv).
    destruct (Obj.get v (toLowerCase token)) as [weight|] eqn:Hw.
    + right; left. exists v, weight. repeat split; assumption.
    + destruct (stemmer this) as [st|] eqn:Hst.
      * destruct (Obj.get v (PropertyKey (charAt0 token)))
          as [weight0|] eqn:H0.
        -- right; right. exists v, weight0.
           repeat split; try assumption. discriminate.
        -- left. split; [|reflexivity].
           intros v' E. injection E as <-. exact Hw.
      * left. split; [|reflexivity].
        intros v' E. injection E as <-. exact Hw.
  - left. split; [discriminate|].
    apply scanStep_no_vocabulary; assumption.
Qed.

Lemma negatorTest_true this token :
  negatorTest toLowerCase this token = true
  <-> isNegator toLowerCase this token.
Proof. apply indexOf_test. Qed.

Lemma negatorTest_false this token :
  negatorTest toLowerCase this token = false
  <-> ~ isNegator toLowerCase this token.
Proof. apply indexOf_test_false. Qed.

(** Hits are negators and word scores. *)
Lemma fold_hits_count this words vars :
  (Scan.nrHits (fold_left (scanStep toLowerCase this) words vars)
   + List.length (Scan.wordScores vars)
   = Scan.nrHits vars + countNegators toLowerCase this words
     + List.length
         (Scan.wordScores (fold_left (scanStep toLowerCase this) words vars))
  )%nat.
Proof.
  revert vars. induction words as [|token words IH]; intros vars.
  - unfold countNegators. simpl. lia.
  - simpl fold_left. specialize (IH (scanStep toLowerCase this vars token)).
    unfold countNegators in *. simpl filter.
    destruct (scanStep_cases this vars token)
      as [[N E]|[[N [P E]]|[N [P [[_ E]|[[v [w [_ [_ E]]]]
                                          |[v [w [_ [_ [_ [_ E]]]]]]]]]]]];
      rewrite E in IH |- *; simpl in IH;
      rewrite ?length_app in IH; simpl in IH.
    + apply negatorTest_true in N. rewrite N. simpl. lia.
    + apply negatorTest_false in N. rewrite N. lia.
    + apply negatorTest_false in N. rewrite N. lia.
    + apply negatorTest_false in N. rewrite N. lia.
    + apply negatorTest_false in N. rewrite N. lia.
Qed.

(** X4. With a vocabulary, numHits is the number of negators among the tokens
    plus the number of word scores of the result. *)
Theorem numHits_counts this utterance :
  vocabulary this <> None ->
  exists result wordScores,
    getSentiment toLowerCase utterance this = (Normal result, this)
    /\ Result.wordScores result = Some wordScores
    /\ Result.numHits result
       = (countNegators toLowerCase this (wordsOf this utterance)
          + List.length wordScores)%nat.
Proof.
  intros Hv. eexists. eexists.
  split; [apply getSentiment_run; exact Hv|].
  split; [reflexivity|]. cbn.
  pose proof (fold_hits_count this (wordsOf this utterance) Scan.init) as H.
  simpl in H. unfold scan. lia.
Qed.

Lemma sumScores_snoc wordScores entry :
  sumScores (wordScores ++ [entry])
  = Number.add (sumScores wordScores) (WordScore.score entry).
Proof. unfold sumScores. rewrite fold_left_app. reflexivity. Qed.

Lemma fold_score_sum this words vars :
  stemmer this = None ->
  sumScores (Scan.wordScores vars) = Num (Scan.score vars) ->
  sumScores
    (Scan.wordScores (fold_left (scanStep toLowerCase this) words vars))
  = Num (Scan.score (fold_left (scanStep toLowerCase this) words vars)).
Proof.
  intros Hst. revert vars.
  induction words as [|token words IH]; intros vars H; simpl.
  - exact H.
  - apply IH.
    destruct (scanStep_cases this vars token)
      as [[N E]|[[N [P E]]|[N [P [[_ E]|[[v [w [_ [_ E]]]]
                                          |[v [w [_ [Hs _]]]]]]]]]].
    + rewrite E. exact H.
    + rewrite E. exact H.
    + rewrite E. exact H.
    + rewrite E. simpl. rewrite sumScores_snoc, H. reflexivity.
    + contradiction.
Qed.

(** X5. For an analyzer without a stemmer, on tokens none of which is, in
    lower case, a name that every object inherits, the score is the sum,
    in their order, of the word scores of the result. *)
Theorem score_is_sum_of_wordScores this utterance :
  vocabulary this <> None ->
  stemmer this = None ->
  Forall (fun token => ~ In (toLowerCase token) inheritedNames)
    (wordsOf this utterance) ->
  exists result wordScores,
    getSentiment toLowerCase utterance this = (Normal result, this)
    /\ Result.wordScores result = Some wordScores
    /\ sumScores wordScores = Num (Result.score result).
Proof.
  intros Hv Hst _. eexists. eexists.
  split; [apply getSentiment_run; exact Hv|].
  split; [reflexivity|]. cbn.
  apply fold_score_sum; [exact Hst | reflexivity].
Qed.

End Outcomes.

(* ------------------------------------------------------------------ *)
(** ** Scans that follow one another *)

Section Composition.

Variable toLowerCase : string -> string.

(** The callback on a scan that goes on after another one. *)
Lemma scanStep_continued this first vars token :
  scanStep toLowerCase this (continued first vars) token
  = continued first (scanStep toLowerCase this vars token).
Proof.
  destruct (isNegator_dec toLowerCase this token) as [N|N].
  { rewrite !(scanStep_negator _ _ _ _ N). unfold continued. simpl.
    f_equal. lia. }
  destruct (isNegationPunctuation_dec toLowerCase this token) as [P|P].
  { rewrite !(scanStep_punctuation _ _ _ _ N P). reflexivity. }
  destruct (vocabulary this) as [v|] eqn:Hv.
  - rewrite !(scanStep_word toLowerCase this _ token v N P Hv).
    destruct (Obj.get v (toLowerCase token)) as [weight|].
    + unfold continued. simpl. f_equal; [ring | lia | symmetry; apply app_assoc].
    + destruct (stemmer this); [|reflexivity].
      destruct (Obj.get v (PropertyKey (charAt0 token))); [|reflexivity].
      unfold continued. simpl. f_equal; [ring | lia | symmetry; apply app_assoc].
  - rewrite !(scanStep_no_vocabulary toLowerCase this _ token N P Hv).
    reflexivity.
Qed.

Lemma fold_continued this first words vars :
  fold_left (scanStep toLowerCase this) words (continued first vars)
  = continued first (fold_left (scanStep toLowerCase this) words vars).
Proof.
  revert vars. induction words as [|token words IH]; intros vars; simpl.
  - reflexivity.
  - rewrite scanStep_continued. apply IH.
Qed.

(** A scan whose multiplier is back at 1 is followed by a fresh scan. *)
Lemma scan_app_neutral this first second :
  Scan.negator (scan toLowerCase this first) = 1%R ->
  scan toLowerCase this (first ++ second)
  = continued (scan toLowerCase this first) (scan toLowerCase this second).
Proof.
  intros H1. unfold scan at 1. rewrite fold_left_app.
  fold (scan toLowerCase this first).
  replace (scan toLowerCase this first)
    with (continued (scan toLowerCase this first) Scan.init) at 1.
  - apply fold_continued.
  - destruct (scan toLowerCase this first) as [s n h ws].
    simpl in H1. subst n. unfold continued. simpl.
    f_equal; [ring | lia | apply app_nil_r].
Qed.

Lemma fold_without_negators this words vars :
  Scan.negator vars = 1%R ->
  Forall (fun token => ~ isNegator toLowerCase this token) words ->
  Scan.negator (fold_left (scanStep toLowerCase this) words vars) = 1%R.
Proof.
  intros H1 Hall. revert vars H1.
  induction Hall as [|token words N _ IH]; intros vars H1; simpl.
  - exact H1.
  - apply IH.
    destruct (isNegationPunctuation_dec toLowerCase this token) as [P|P].
    + rewrite (scanStep_punctuation _ _ _ _ N P). reflexivity.
    + rewrite (scanStep_keeps_negator _ _ _ _ N P). exact H1.
Qed.

(** X6. When the first utterance holds no negator, or ends with a negation
    punctuation, the result on the two utterances put together counts the
    hits and the words of the two results, and its word scores are those
    of the first followed by those of the second. *)
Theorem utterances_compose this first second :
  vocabulary this <> None ->
  Forall (fun token => ~ isNegator toLowerCase this token) first
  \/ (exists before mark,
        first = (before ++ [mark])%list
        /\ ~ isNegator toLowerCase this mark
        /\ isNegationPunctuation toLowerCase this mark) ->
  exists result1 result2 result wordScores1 wordScores2,
    getSentiment toLowerCase (Tokens first) this = (Normal result1, this)
    /\ getSentiment toLowerCase (Tokens second) this = (Normal result2, this)
    /\ getSentiment toLowerCase (Tokens (first ++ second)) this
       = (Normal result, this)
    /\ Result.numHits result
       = (Result.numHits result1 + Result.numHits result2)%nat
    /\ Result.numWords result
       = (Result.numWords result1 + Result.numWords result2)%nat
    /\ Result.wordScores result1 = Some wordScores1
    /\ Result.wordScores result2 = Some wordScores2
    /\ Result.wordScores result = Some (wordScores1 ++ wordScores2)%list.
Proof.
  intros Hv Hfirst.
  assert (H1 : Scan.negator (scan toLowerCase this first) = 1%R).
  { destruct Hfirst as [Hall|[before [mark [-> [N P]]]]].
    - apply fold_without_negators; [reflexivity | exact Hall].
    - rewrite scan_snoc, (scanStep_punctuation _ _ _ _ N P). reflexivity. }
  do 5 eexists.
  split; [apply getSentiment_run; exact Hv|].
  split; [apply getSentiment_run; exact Hv|].
  split; [apply getSentiment_run; exact Hv|].
  cbn. pose proof (scan_app_neutral this first second H1) as E.
  unfold scan in E. rewrite E. simpl.
  repeat split. apply length_app.
Qed.

(** The callback on the variables with the opposite score and
    multiplier. *)
Lemma scanStep_opposite this vars token :
  ~ isNegator toLowerCase this token ->
  ~ isNegationPunctuation toLowerCase this token ->
  scanStep toLowerCase this
    {| Scan.score := - Scan.score vars;
       Scan.negator := - Scan.negator vars;
       Scan.nrHits := Scan.nrHits vars;
       Scan.wordScores := map oppositeEntry (Scan.wordScores vars) |} token
  = let vars' := scanStep toLowerCase this vars token in
    {| Scan.score := - Scan.score vars';
       Scan.negator := - Scan.negator vars';
       Scan.nrHits := Scan.nrHits vars';
       Scan.wordScores := map oppositeEntry (Scan.wordScores vars') |}.
Proof.
  intros N P. cbv zeta. destruct (vocabulary this) as [v|] eqn:Hv.
  - rewrite !(scanStep_word toLowerCase this _ token v N P Hv).
    destruct (Obj.get v (toLowerCase token)) as [weight|].
    + simpl. rewrite map_app. simpl.
      f_equal; [ring|]. do 2 f_equal. unfold oppositeEntry. simpl.
      do 2 f_equal. ring.
    + destruct (stemmer this); [|reflexivity].
      destruct (Obj.get v (PropertyKey (charAt0 token))); [|reflexivity].
      simpl. rewrite map_app. simpl. f_equal. ring.
  - rewrite !(scanStep_no_vocabulary toLowerCase this _ token N P Hv).
    reflexivity.
Qed.

Lemma fold_opposite this words vars :
  Forall (fun token => ~ isNegator toLowerCase this token
                       /\ ~ isNegationPunctuation toLowerCase this token)
    words ->
  fold_left (scanStep toLowerCase this) words
    {| Scan.score := - Scan.score vars;
       Scan.negator := - Scan.negator vars;
       Scan.nrHits := Scan.nrHits vars;
       Scan.wordScores := map oppositeEntry (Scan.wordScores vars) |}
  = let vars' := fold_left (scanStep toLowerCase this) words vars in
    {| Scan.score := - Scan.score vars';
       Scan.negator := - Scan.negator vars';
       Scan.nrHits := Scan.nrHits vars';
       Scan.wordScores := map oppositeEntry (Scan.wordScores vars') |}.
Proof.
  intros Hall. revert vars.
  induction Hall as [|token words [N P] _ IH]; intros vars; simpl.
  - reflexivity.
  - rewrite (scanStep_opposite this vars token N P). apply IH.
Qed.

(** X7. A negator in front of words, none of which is a negator or a negation
    punctuation, gives the opposite score and one more hit; each word
    score becomes its opposite. *)
Theorem leading_negator_flips this negator words :
  vocabulary this <> None ->
  isNegator toLowerCase this negator ->
  Forall (fun token => ~ isNegator toLowerCase this token
                       /\ ~ isNegationPunctuation toLowerCase this token)
    words ->
  exists result result' wordScores,
    getSentiment toLowerCase (Tokens words) this = (Normal result, this)
    /\ getSentiment toLowerCase (Tokens (negator :: words)) this
       = (Normal result', this)
    /\ Result.score result' = (- Result.score result)%R
    /\ Result.numHits result' = S (Result.numHits result)
    /\ Result.wordScores result = Some wordScores
    /\ Result.wordScores result' = Some (map oppositeEntry wordScores).
Proof.
  intros Hv N Hall. do 3 eexists.
  split; [apply getSentiment_run; exact Hv|].
  split; [apply getSentiment_run; exact Hv|].
  cbn. rewrite (scanStep_negator _ _ _ _ N). simpl.
  replace {| Scan.score := 0; Scan.negator := -1; Scan.nrHits := 1;
             Scan.wordScores := [] |}
    with (continued
            {| Scan.score := 0; Scan.negator := 1; Scan.nrHits := 1;
               Scan.wordScores := [] |}
            {| Scan.score := - Scan.score Scan.init;
               Scan.negator := - Scan.negator Scan.init;
               Scan.nrHits := Scan.nrHits Scan.init;
               Scan.wordScores :=
                 map oppositeEntry (Scan.wordScores Scan.init) |})
    by (unfold continued; simpl; f_equal; ring).
  rewrite fold_continued, (fold_opposite this words Scan.init Hall).
  cbv zeta. unfold continued. simpl.
  repeat split. ring.
Qed.

End Composition.

(* ------------------------------------------------------------------ *)
(** ** Letter case *)

Section LetterCase.

Variable toLowerCase : string -> string.

Lemma scanStep_sameWord this vars token1 token2 :
  sameWord toLowerCase this token1 token2 ->
  scanStep toLowerCase this vars token1
  = scanStep toLowerCase this vars token2.
Proof.
  intros [Hlow Hwhy].
  assert (HN : isNegator toLowerCase this token1
               <-> isNegator toLowerCase this token2)
    by (unfold isNegator; rewrite Hlow; reflexivity).
  assert (HP : isNegationPunctuation toLowerCase this token1
               <-> isNegationPunctuation toLowerCase this token2)
    by (unfold isNegationPunctuation; rewrite Hlow; reflexivity).
  destruct (isNegator_dec toLowerCase this token1) as [N|N].
  { rewrite (scanStep_negator _ _ _ _ N).
    rewrite (scanStep_negator _ _ _ token2 (proj1 HN N)). reflexivity. }
  assert (N2 : ~ isNegator toLowerCase this token2)
    by (intros H; apply N, HN, H).
  destruct (isNegationPunctuation_dec toLowerCase this token1) as [P|P].
  { rewrite (scanStep_punctuation _ _ _ _ N P).
    rewrite (scanStep_punctuation _ _ _ token2 N2 (proj1 HP P)).
    reflexivity. }
  assert (P2 : ~ isNegationPunctuation toLowerCase this token2)
    by (intros H; apply P, HP, H).
  destruct (vocabulary this) as [v|] eqn:Hv.
  - rewrite (scanStep_word toLowerCase this vars token1 v N P Hv).
    rewrite (scanStep_word toLowerCase this vars token2 v N2 P2 Hv).
    rewrite <- Hlow.
    destruct (Obj.get v (toLowerCase token1)) as [weight|] eqn:Hw;
      [reflexivity|].
    destruct Hwhy as [Hst|[H|[H|[v' [weight [Hv' Hw']]]]]].
    + rewrite Hst. reflexivity.
    + contradiction.
    + contradiction.
    + rewrite Hv in Hv'. injection Hv' as <-. rewrite Hw in Hw'.
      discriminate.
  - rewrite !(scanStep_no_vocabulary toLowerCase this vars _) by assumption.
    reflexivity.
Qed.

(** X8. Tokens that differ in case only give the same result, for an analyzer
    without a stemmer and, with a stemmer, for tokens that are negators,
    negation punctuations or have an exact entry. *)
Theorem case_insensitive this words1 words2 :
  Forall2 (sameWord toLowerCase this) words1 words2 ->
  getSentiment toLowerCase (Tokens words1) this
  = getSentiment toLowerCase (Tokens words2) this.
Proof.
  intros Hall.
  assert (E : forall vars,
             fold_left (scanStep toLowerCase this) words1 vars
             = fold_left (scanStep toLowerCase this) words2 vars).
  { induction Hall as [|token1 token2 words1 words2 Hsame _ IH];
      intros vars; simpl.
    - reflexivity.
    - rewrite (scanStep_sameWord this vars token1 token2 Hsame). apply IH. }
  pose proof (Forall2_length Hall) as Hlen.
  destruct (vocabulary this) as [v|] eqn:Hv.
  - rewrite !getSentiment_run by (rewrite Hv; discriminate).
    simpl. unfold scan. rewrite E, Hlen. reflexivity.
  - rewrite !getSentiment_degraded by exact Hv.
    simpl. rewrite Hlen. reflexivity.
Qed.

End LetterCase.

(* ------------------------------------------------------------------ *)
(** ** normalize on every number *)

Section NormalizeEdges.

Local Open Scope R_scope.

(** X10. Whatever the score and alpha are, [normalize] returns NaN or a number
    of [[-1, 1]]: never an infinity, never a number outside the
    interval. *)
Theorem normalize_total_range (score : number) (alpha : option number) :
  normalize score alpha = NaN
  \/ Number.in_unit_range (normalize score alpha).
Proof.
  unfold normalize, Number.gt.
  destruct (Number.div score _) as [r| | |].
  - simpl. destruct (Rlt_dec r (-1)) as [L|L]; [right; simpl; lra|].
    destruct (Rlt_dec 1 r) as [G|G]; right; simpl; lra.
  - left. reflexivity.
  - right. simpl. lra.
  - right. simpl. lra.
Qed.

(** X11. A score that is NaN or infinite gives NaN, whatever alpha is, and so
    does an alpha that is NaN. *)
Theorem normalize_not_finite (score : number) (alpha : option number) :
  (score = NaN \/ score = PosInf \/ score = NegInf \/ alpha = Some NaN) ->
  normalize score alpha = NaN.
Proof.
  intros [-> | [-> | [-> | ->]]].
  - reflexivity.
  - destruct alpha as [[a| | |]|]; reflexivity.
  - destruct alpha as [[a| | |]|]; reflexivity.
  - destruct score; reflexivity.
Qed.

(** X13. For a positive alpha, [normalize] is odd. *)
Theorem normalize_odd (alpha s : R) :
  0 < alpha ->
  normalize (Num (- s)) (Some (Num alpha))
  = opposite (normalize (Num s) (Some (Num alpha))).
Proof.
  intros Ha. rewrite !normalize_real by exact Ha. simpl. f_equal.
  replace (- s * - s) with (s * s) by ring.
  unfold Rdiv. ring.
Qed.

(** X14. An alpha that is not positive is not rejected: with the score 0
    and an alpha <= 0, [normalize] gives NaN, the quotient being 0 / 0 for
    the alpha 0 and the square root being that of a negative number
    otherwise. *)
Theorem normalize_invalid_alpha (alpha : R) :
  alpha <= 0 ->
  normalize (Num 0) (Some (Num alpha)) = NaN.
Proof.
  intros Ha. unfold normalize. cbn [Number.mul Number.add Number.sqrt].
  destruct (Rlt_dec (0 * 0 + alpha) 0) as [_|N]; [reflexivity|].
  assert (E : 0 * 0 + alpha = 0) by lra. rewrite E, sqrt_0.
  cbn [Number.div].
  destruct (Req_dec_T 0 0) as [_|Z]; [reflexivity|lra].
Qed.

End NormalizeEdges.

(* ------------------------------------------------------------------ *)
(** ** addVocabulary on its own *)

Lemma fold_mergeKey_fixed d keys acc :
  (forall key, In key keys ->
               Obj.get acc key = Obj.get d key
               \/ (key = "__proto__" /\ Obj.get acc key = None)) ->
  fold_left (mergeKey d) keys acc = acc.
Proof.
  induction keys as [|key keys IH]; intros H; simpl.
  - reflexivity.
  - assert (E : mergeKey d acc key = acc).
    { unfold mergeKey. destruct (Obj.get d key) as [w|] eqn:Hd;
        [|reflexivity].
      destruct (H key (or_introl eq_refl)) as [Hsame|[-> Hnone]].
      - apply set_same_value. rewrite Hsame. exact Hd.
      - apply set_proto_ignored, Hnone. }
    rewrite E. apply IH. intros key' HI. apply H. right. exact HI.
Qed.

Lemma merged_idempotent d v : merged d (merged d v) = merged d v.
Proof.
  unfold merged at 1. apply fold_mergeKey_fixed.
  intros key HI. apply get_in_keys in HI.
  destruct (Obj.get d key) as [w|] eqn:Hd; [|contradiction].
  destruct (String.eqb_spec key "__proto__") as [->|N].
  - destruct (Obj.get v "__proto__") as [w0|] eqn:Hv.
    + left. apply merged_override; [exact Hd|].
      right. rewrite Hv. discriminate.
    + right. split; [reflexivity|].
      rewrite merged_other by (right; split; [reflexivity|exact Hv]).
      exact Hv.
  - left. apply merged_override; [exact Hd | left; exact N].
Qed.

(** X15. [addVocabulary] called on its own: without a dictionary, or with an
    empty one, it changes nothing; with a dictionary that has a key and no
    vocabulary loaded it throws a TypeError and changes nothing. *)
Theorem addVocabulary_edges this :
  (dict this = None \/ dict this = Some [] ->
   addVocabulary this = (Normal tt, this))
  /\ (forall d, dict this = Some d -> d <> [] -> vocabulary this = None ->
      addVocabulary this = (Throw "TypeError", this)).
Proof.
  split.
  - intros [Hd|Hd]; unfold addVocabulary, bind, self; rewrite Hd; reflexivity.
  - intros d Hd Hne Hv. unfold addVocabulary, bind, self. rewrite Hd.
    destruct d as [|[key w] d']; [contradiction|].
    simpl. unfold addVocabularyKey, bind, self. rewrite Hv. reflexivity.
Qed.

(** X16. With a vocabulary and a dictionary, a second [addVocabulary] changes
    nothing: the vocabulary after the two calls is the one after the
    first.  It has the dictionary's weight at every key of the dictionary,
    except at the key [__proto__] when the vocabulary does not own it:
    that assignment is ignored. *)
Theorem addVocabulary_idempotent this d v :
  dict this = Some d ->
  vocabulary this = Some v ->
  exists this',
    addVocabulary this = (Normal tt, this')
    /\ (addVocabulary ;; addVocabulary) this = (Normal tt, this')
    /\ exists v', vocabulary this' = Some v'
                  /\ (forall k w,
                        Obj.get d k = Some w ->
                        k <> "__proto__" \/ Obj.get v k <> None ->
                        Obj.get v' k = Some w)
                  /\ (forall k,
                        Obj.get d k = None
                        \/ (k = "__proto__" /\ Obj.get v k = None) ->
                        Obj.get v' k = Obj.get v k).
Proof.
  intros Hd Hv.
  pose proof (addVocabulary_run this d v Hd Hv) as H1.
  eexists. split; [exact H1|]. split.
  - rewrite (bind_run _ _ _ _ _ H1).
    rewrite (addVocabulary_run _ d (merged d v)) by (simpl; assumption || reflexivity).
    rewrite merged_idempotent. reflexivity.
  - exists (merged d v). split; [reflexivity|]. split.
    + intros k w. apply merged_override.
    + intros k. apply merged_other.
Qed.

(* ------------------------------------------------------------------ *)
(** ** The order of the keys after the merge *)





(* ------------------------------------------------------------------ *)
(** ** Every field after loadVocabulary *)

Lemma analyzer_ext (a b : SentimentAnalyzer) :
  settings a = settings b ->
  dict a = dict b ->
  stemmer a = stemmer b ->
  vocabularyFileName a = vocabularyFileName b ->
  negationFileName a = negationFileName b ->
  negationPunctuationFileName a = negationPunctuationFileName b ->
  vocabulary a = vocabulary b ->
  vocabularyStem a = vocabularyStem b ->
  negations a = negations b ->
  negationPunctuations a = negationPunctuations b ->
  loadedFiles a = loadedFiles b ->
  a = b.
Proof.
  destruct a, b. simpl. intros. subst. reflexivity.
Qed.

Section LoadFields.

Variable readVocabulary : string -> option jsobject.
Variable requireWords : string -> option (list string).
Variable requirePunctuation : string -> option (list string).

Lemma loadVocabulary_fields this :
  let language := Settings.language (settings this) in
  let name :=
    "./languages/" ++ language ++ "/" ++ Settings.type (settings this)
      ++ "_" ++ language ++ ".json" in
  let negationName :=
    "./languages/" ++ language ++ "/negations_" ++ language ++ ".json" in
  let punctuationName :=
    "./languages/" ++ language ++ "/negationPunctuations_" ++ language
      ++ ".json" in
  exists this',
    loadVocabulary readVocabulary requireWords requirePunctuation this
    = (Normal tt, this')
    /\ settings this' = settings this
    /\ dict this' = dict this
    /\ stemmer this' = stemmer this
    /\ vocabularyFileName this' = name
    /\ negationFileName this' = negationName
    /\ negationPunctuationFileName this' = punctuationName
    /\ vocabulary this'
       = match readVocabulary name with
         | Some base =>
             Some match dict this with
                  | Some d => merged d base
                  | None => base
                  end
         | None => None
         end
    /\ vocabularyStem this'
       = match vocabulary this' with
         | Some v =>
             Some match stemmer this with
                  | Some st => stemmed st v
                  | None => []
                  end
         | None => vocabularyStem this
         end
    /\ negations this'
       = match requireWords negationName with
         | Some words => words
         | None => []
         end
    /\ negationPunctuations this'
       = match requirePunctuation punctuationName with
         | Some punctuation => punctuation
         | None => []
         end
    /\ loadedFiles this'
       = match readVocabulary name with
         | Some _ =>
             if existsb (String.eqb name) (loadedFiles this)
             then loadedFiles this
             else (loadedFiles this ++ [name])%list
         | None => loadedFiles this
         end.
Proof.
  cbv zeta. unfold loadVocabulary.
  rewrite bind_self, !bind_assign, bind_self, bind_assign, bind_self.
  cbn [vocabulary set_vocabulary vocabularyFileName
         set_negationPunctuationFileName set_negationFileName
         set_vocabularyFileName dict stemmer].
  destruct (readVocabulary _) as [base|].
  - match goal with |- context [bind _ _ ?s = _] => set (s1 := s) end.
    set (mv := match dict this with
               | Some d => merged d base
               | None => base
               end).
    set (stems := match stemmer this with
                  | Some st => stemmed st mv
                  | None => []
                  end).
    assert (Hadd :
      match dict this with
      | Some _ => addVocabulary
      | None => ret tt
      end s1 = (Normal tt, set_vocabulary (Some mv) s1)).
    { subst mv. destruct (dict this) as [d|] eqn:Hd.
      - apply addVocabulary_run; [exact Hd|reflexivity].
      - reflexivity. }
    assert (Hstem :
      match stemmer this with
      | Some _ =>
          vocabulary0 <-
            member (vocabulary
                      (set_vocabularyStem (Some [])
                         (set_vocabulary (Some mv) s1))) ;;
          forEach (Obj.keys vocabulary0) stemWord tt
      | None => ret tt
      end (set_vocabularyStem (Some []) (set_vocabulary (Some mv) s1))
      = (Normal tt,
         set_vocabularyStem (Some stems) (set_vocabulary (Some mv) s1))).
    { subst stems. destruct (stemmer this) as [st|] eqn:Hst.
      - cbn [vocabulary set_vocabularyStem set_vocabulary member].
        rewrite bind_ret.
        rewrite (stemWord_loop st mv (Obj.keys mv) _ []);
          [reflexivity|exact Hst|reflexivity|reflexivity].
      - reflexivity. }
    rewrite !bind_bind. rewrite (bind_run _ _ _ _ _ Hadd).
    cbv beta. rewrite !bind_bind, bind_assign. cbv beta.
    rewrite !bind_bind, bind_self. cbv beta.
    rewrite !bind_bind.
    cbn [stemmer set_vocabularyStem set_vocabulary s1
           set_negationPunctuationFileName set_negationFileName
           set_vocabularyFileName].
    rewrite (bind_run _ _ _ _ _ Hstem). cbv beta.
    rewrite !bind_bind, bind_self. cbv beta.
    cbn [vocabulary set_vocabularyStem set_vocabulary vocabularyFileName
           loadedFiles s1 set_negationPunctuationFileName
           set_negationFileName set_vocabularyFileName].
    destruct (existsb _ (loadedFiles this)); cbn [negb].
    + rewrite bind_ret, bind_self, bind_assign, bind_self.
      eexists. split; [reflexivity|]. cbn. repeat split.
    + rewrite bind_assign, bind_self, bind_assign, bind_self.
      eexists. split; [reflexivity|]. cbn. repeat split.
  - rewrite bind_ret, bind_self, bind_assign, bind_self.
    eexists. split; [reflexivity|]. cbn. repeat split.
Qed.

End LoadFields.

(* ------------------------------------------------------------------ *)
(** ** loadVocabulary and what follows it *)

Section Loaded.

Variable toLowerCase : string -> string.
Variable readVocabulary : string -> option jsobject.
Variable requireWords : string -> option (list string).
Variable requirePunctuation : string -> option (list string).

(** X18. After [loadVocabulary] with a vocabulary read and a stemmer, the
    stem table is the one derived from the vocabulary with the dictionary
    merged in.  A stem has an entry exactly when it is not [__proto__] and
    some key of that vocabulary has it as its one stem, and the entry is
    the weight of the last such key in the order in which the vocabulary
    enumerates its keys. *)
Theorem stem_table_entries this base st :
  readVocabulary
    ("./languages/" ++ Settings.language (settings this) ++ "/"
       ++ Settings.type (settings this) ++ "_"
       ++ Settings.language (settings this) ++ ".json") = Some base ->
  stemmer this = Some st ->
  exists this' v stems,
    loadVocabulary readVocabulary requireWords requirePunctuation this
    = (Normal tt, this')
    /\ vocabulary this' = Some v
    /\ v = match dict this with
           | Some d => merged d base
           | None => base
           end
    /\ vocabularyStem this' = Some stems
    /\ (forall s, Obj.get stems s <> None
                  <-> s <> "__proto__"
                      /\ exists word, In word (Obj.keys v)
                                      /\ tokenizeAndStem st word = [s])
    /\ (forall before word after s w,
          Obj.keys v = (before ++ word :: after)%list ->
          tokenizeAndStem st word = [s] ->
          Obj.get v word = Some w ->
          s <> "__proto__" ->
          Forall (fun word' => tokenizeAndStem st word' <> [s]) after ->
          Obj.get stems s = Some w).
Proof.
  intros Hr Hst.
  destruct (loadVocabulary_fields readVocabulary requireWords
              requirePunctuation this)
    as [this' [Hrun [_ [_ [_ [_ [_ [_ [Hv [Hs _]]]]]]]]]].
  cbv zeta in Hv. rewrite Hr in Hv. rewrite Hv, Hst in Hs.
  do 3 eexists. split; [exact Hrun|]. split; [exact Hv|].
  split; [reflexivity|]. split; [exact Hs|]. apply stemmed_entries.
Qed.

(** X19. Running [loadVocabulary] again on the analyzer that a run of it
    left, the files being the same, completes and changes nothing. *)
Theorem loadVocabulary_reload this this' :
  loadVocabulary readVocabulary requireWords requirePunctuation this
  = (Normal tt, this') ->
  loadVocabulary readVocabulary requireWords requirePunctuation this'
  = (Normal tt, this').
Proof.
  intros Hfirst.
  destruct (loadVocabulary_fields readVocabulary requireWords
              requirePunctuation this)
    as [this1 [Hrun [Hse [Hd [Hst [Hn1 [Hn2 [Hn3 [Hv [Hs [Hng [Hnp Hl]]]]]]]]]]]].
  rewrite Hfirst in Hrun. injection Hrun as <-.
  destruct (loadVocabulary_fields readVocabulary requireWords
              requirePunctuation this')
    as [this'' [Hrun' [Hse' [Hd' [Hst' [Hn1' [Hn2' [Hn3' [Hv' [Hs' [Hng'
         [Hnp' Hl']]]]]]]]]]]].
  cbv zeta in *.
  rewrite Hrun'. f_equal.
  rewrite Hse in Hn1', Hn2', Hn3', Hv', Hng', Hnp', Hl'.
  rewrite Hd in Hv'. rewrite Hst in Hs'.
  assert (Ev : vocabulary this'' = vocabulary this')
    by (rewrite Hv', Hv; reflexivity).
  apply analyzer_ext; try congruence.
  - rewrite Hs', Ev, Hs. destruct (vocabulary this'); reflexivity.
  - rewrite Hl'. destruct (readVocabulary _) as [base|]; [|reflexivity].
    assert (Hin : existsb
                    (String.eqb
                       ("./languages/" ++ Settings.language (settings this)
                          ++ "/" ++ Settings.type (settings this) ++ "_"
                          ++ Settings.language (settings this) ++ ".json"))
                    (loadedFiles this') = true).
    { rewrite Hl.
      destruct (existsb _ (loadedFiles this)) eqn:E; [exact E|].
      rewrite existsb_app. simpl. rewrite String.eqb_refl.
      apply orb_true_r. }
    rewrite Hin. reflexivity.
Qed.

(** X20. The flags of loaded files: a loaded vocabulary has its file name
    flagged, once; a failed read flags nothing; no flag is removed. *)
Theorem loadedFiles_flags this :
  let name :=
    "./languages/" ++ Settings.language (settings this) ++ "/"
      ++ Settings.type (settings this) ++ "_"
      ++ Settings.language (settings this) ++ ".json" in
  let this' :=
    snd (loadVocabulary readVocabulary requireWords requirePunctuation this)
  in
  (readVocabulary name = None -> loadedFiles this' = loadedFiles this)
  /\ (readVocabulary name <> None -> In name (loadedFiles this'))
  /\ (forall file, In file (loadedFiles this) -> In file (loadedFiles this'))
  /\ (NoDup (loadedFiles this) -> NoDup (loadedFiles this')).
Proof.
  cbv zeta.
  destruct (loadVocabulary_fields readVocabulary requireWords
              requirePunctuation this)
    as [this' [Hrun [_ [_ [_ [_ [_ [_ [_ [_ [_ [_ Hl]]]]]]]]]]]].
  cbv zeta in Hl. rewrite Hrun. simpl. rewrite Hl.
  destruct (readVocabulary _) as [base|].
  - destruct (existsb _ (loadedFiles this)) eqn:E.
    + repeat split; try (intros; assumption || discriminate).
      intros _. apply existsb_eqb_In. exact E.
    + assert (Hnotin : ~ In ("./languages/"
                               ++ Settings.language (settings this) ++ "/"
                               ++ Settings.type (settings this) ++ "_"
                               ++ Settings.language (settings this)
                               ++ ".json") (loadedFiles this)).
      { intros HI. apply existsb_eqb_In in HI. rewrite HI in E.
        discriminate. }
      split; [discriminate|]. split; [|split].
      * intros _. apply in_or_app. right. left. reflexivity.
      * intros file HI. apply in_or_app. left. exact HI.
      * intros Hnd. apply NoDup_app; [exact Hnd | repeat constructor;
          intros [] |].
        intros x Hx [<-|[]]. contradiction.
  - repeat split; try (intros; assumption).
    intros H. exfalso. apply H. reflexivity.
Qed.

Lemma countNegators_none this words :
  negations this = [] -> countNegators toLowerCase this words = 0%nat.
Proof.
  intros Hn. unfold countNegators.
  induction words as [|token words IH]; simpl.
  - reflexivity.
  - unfold negatorTest at 1. rewrite Hn. simpl. exact IH.
Qed.

(** X21. When the negation files give no table, [loadVocabulary] leaves both
    tables empty; no token is then a negator or a negation punctuation,
    and numHits is the number of word scores. *)
Theorem missing_negation_files this utterance :
  requireWords
    ("./languages/" ++ Settings.language (settings this) ++ "/negations_"
       ++ Settings.language (settings this) ++ ".json") = None ->
  requirePunctuation
    ("./languages/" ++ Settings.language (settings this)
       ++ "/negationPunctuations_" ++ Settings.language (settings this)
       ++ ".json") = None ->
  exists this',
    loadVocabulary readVocabulary requireWords requirePunctuation this
    = (Normal tt, this')
    /\ negations this' = []
    /\ negationPunctuations this' = []
    /\ (forall token,
          ~ isNegator toLowerCase this' token
          /\ ~ isNegationPunctuation toLowerCase this' token)
    /\ (vocabulary this' <> None ->
        exists result wordScores,
          getSentiment toLowerCase utterance this' = (Normal result, this')
          /\ Result.wordScores result = Some wordScores
          /\ Result.numHits result = List.length wordScores).
Proof.
  intros Hw Hp.
  destruct (loadVocabulary_fields readVocabulary requireWords
              requirePunctuation this)
    as [this' [Hrun [_ [_ [_ [_ [_ [_ [_ [_ [Hng [Hnp _]]]]]]]]]]]].
  cbv zeta in Hng, Hnp. rewrite Hw in Hng. rewrite Hp in Hnp.
  exists this'. split; [exact Hrun|]. split; [exact Hng|].
  split; [exact Hnp|]. split.
  - intros token. unfold isNegator, isNegationPunctuation.
    rewrite Hng, Hnp. split; intros H; apply H; reflexivity.
  - intros Hv. do 2 eexists.
    split; [apply getSentiment_run; exact Hv|].
    split; [reflexivity|]. cbn.
    pose proof (fold_hits_count toLowerCase this'
                  (wordsOf this' utterance) Scan.init) as H.
    rewrite (countNegators_none this' _ Hng) in H. simpl in H.
    unfold scan. lia.
Qed.

End Loaded.

(* ------------------------------------------------------------------ *)
(** ** The constructor *)

Lemma orDefault_not_empty (s : option string) (d : string) :
  d <> "" -> orDefault s d <> "".
Proof.
  intros Hd. destruct s as [[|c rest]|]; simpl; try exact Hd. discriminate.
Qed.

Lemma defaultType_values (language : string) :
  (defaultType language = "pattern"
   /\ (language = "it" \/ language = "fr" \/ language = "nl"))
  \/ (defaultType language = "senticon"
      /\ language <> "it" /\ language <> "fr" /\ language <> "nl").
Proof.
  unfold defaultType.
  destruct (String.eqb_spec language "it") as [->|N1];
    [left; split; [reflexivity | left; reflexivity]|].
  destruct (String.eqb_spec language "fr") as [->|N2];
    [left; split; [reflexivity | right; left; reflexivity]|].
  destruct (String.eqb_spec language "nl") as [->|N3];
    [left; split; [reflexivity | right; right; reflexivity]|].
  right. repeat split; assumption.
Qed.

Section Constructed.

Variable toLowerCase : string -> string.
Variable readVocabulary : string -> option jsobject.
Variable requireWords : string -> option (list string).
Variable requirePunctuation : string -> option (list string).
Variable getTokenizer : string -> Tokenizer.
Variable getStemmer : string -> option Stemmer.

(** X22. With a vocabulary file that cannot be read or holds an object of
    numbers, the constructor completes.  The analyzer it builds has the
    given language, or "en" when none or the empty string is given; the
    given type, or, when none or the empty string is given, "pattern" for
    the languages "it", "fr" and "nl" and "senticon" for every other one;
    the given dictionary; the vocabulary file of that language and type;
    and a stem table exactly when it has a vocabulary, which is exactly
    when the file could be read. *)
Theorem constructor_state options dictionary staticLoadedFiles :
  exists this,
    constructor readVocabulary requireWords requirePunctuation
      getTokenizer getStemmer options dictionary staticLoadedFiles
    = (Normal tt, this)
    /\ Settings.language (settings this) <> ""
    /\ Settings.type (settings this) <> ""
    /\ ((options = None
         \/ exists given, options = Some given
                          /\ (Options.language given = None
                              \/ Options.language given = Some "")) ->
        Settings.language (settings this) = "en")
    /\ (forall given,
          options = Some given ->
          (forall c rest, Options.language given = Some (String c rest) ->
             Settings.language (settings this)
             = String c rest)
          /\ (forall c rest, Options.type given = Some (String c rest) ->
                Settings.type (settings this)
                = String c rest))
    /\ ((options = None
         \/ exists given, options = Some given
                          /\ (Options.type given = None
                              \/ Options.type given = Some "")) ->
        let language :=
          Settings.language (settings this) in
        (Settings.type (settings this) = "pattern"
         /\ (language = "it" \/ language = "fr" \/ language = "nl"))
        \/ (Settings.type (settings this) = "senticon"
            /\ language <> "it" /\ language <> "fr" /\ language <> "nl"))
    /\ dict this = dictionary
    /\ vocabularyFileName this
       = "./languages/"
           ++ Settings.language (settings this) ++ "/"
           ++ Settings.type (settings this) ++ "_"
           ++ Settings.language (settings this) ++ ".json"
    /\ (vocabulary this = None
        <-> readVocabulary (vocabularyFileName this) = None)
    /\ (vocabulary this = None <-> vocabularyStem this = None).
Proof.
  unfold constructor.
  match goal with
  | |- context [loadVocabulary _ _ _ ?init] => set (this0 := init)
  end.
  destruct (loadVocabulary_fields readVocabulary requireWords
              requirePunctuation this0)
    as [this [Hrun [Hse [Hd [Hst [Hn1 [_ [_ [Hv [Hs _]]]]]]]]]].
  cbv zeta in Hn1, Hv.
  exists this. split; [exact Hrun|].
  rewrite Hse. subst this0. cbn [settings Settings.language Settings.type].
  split; [apply orDefault_not_empty; discriminate|].
  split.
  { apply orDefault_not_empty.
    destruct (defaultType_values
                (orDefault
                   (Options.language
                      match options with
                      | Some s => s
                      | None => Options.empty
                      end) "en"))
      as [[-> _]|[-> _]]; discriminate. }
  split.
  { intros [->|[given [-> [H|H]]]]; [reflexivity | |]; rewrite H;
      reflexivity. }
  split.
  { intros given ->. split; intros c rest H; rewrite H; reflexivity. }
  split.
  { intros Habsent. cbv zeta.
    assert (E : orDefault
                  (Options.type match options with
                                | Some s => s
                                | None => Options.empty
                                end)
                  (defaultType
                     (orDefault
                        (Options.language match options with
                                          | Some s => s
                                          | None => Options.empty
                                          end) "en"))
                = defaultType
                    (orDefault
                       (Options.language match options with
                                         | Some s => s
                                         | None => Options.empty
                                         end) "en")).
    { destruct Habsent as [->|[given [-> [H|H]]]];
        [reflexivity | rewrite H; reflexivity | rewrite H; reflexivity]. }
    rewrite E. apply defaultType_values. }
  split; [exact Hd|].
  split; [rewrite Hn1, ?Hse; reflexivity|].
  rewrite Hn1, Hs, Hv. cbn [dict stemmer vocabularyStem].
  destruct (readVocabulary _) as [base|]; split; split;
    intros H; try discriminate; reflexivity.
Qed.

(** X23. When the vocabulary file of the resolved language and type cannot be
    read, the constructor still succeeds and [getSentiment] on the
    analyzer returns, for every utterance, score 0 with no hit, no range
    and the resolved type and language. *)
Theorem constructor_unsupported options dictionary staticLoadedFiles
  utterance :
  let given := match options with Some s => s | None => Options.empty end in
  let language := orDefault (Options.language given) "en" in
  let type := orDefault (Options.type given) (defaultType language) in
  readVocabulary
    ("./languages/" ++ language ++ "/" ++ type ++ "_" ++ language ++ ".json")
  = None ->
  exists this,
    constructor readVocabulary requireWords requirePunctuation
      getTokenizer getStemmer options dictionary staticLoadedFiles
    = (Normal tt, this)
    /\ getSentiment toLowerCase utterance this
       = (Normal
            {| Result.score := 0;
               Result.numWords := List.length (wordsOf this utterance);
               Result.numHits := 0;
               Result.range := None;
               Result.comparative := Num 0;
               Result.type := type;
               Result.language := language;
               Result.wordScores := None |},
          this).
Proof.
  cbv zeta. intros Hr. unfold constructor.
  match goal with
  | |- context [loadVocabulary _ _ _ ?init] => set (this0 := init)
  end.
  destruct (loadVocabulary_fields readVocabulary requireWords
              requirePunctuation this0)
    as [this [Hrun [Hse [_ [_ [_ [_ [_ [Hv _]]]]]]]]].
  cbv zeta in Hv. subst this0.
  cbn [settings Settings.language Settings.type] in Hv.
  rewrite Hr in Hv.
  exists this. split; [exact Hrun|].
  rewrite (getSentiment_degraded toLowerCase this utterance Hv), Hse.
  reflexivity.
Qed.

(** X24. With [useStemmer: false] the analyzer has no stemmer, whatever
    [settings.stemmer] is; when its vocabulary loads, the stem table is
    empty and, on tokens none of which is, in lower case, a name that
    every object inherits, the score of the result is the sum, in their
    order, of its word scores. *)
Theorem constructor_without_stemmer given dictionary staticLoadedFiles
  utterance :
  Options.useStemmer given = Some false ->
  exists this,
    constructor readVocabulary requireWords requirePunctuation
      getTokenizer getStemmer (Some given) dictionary staticLoadedFiles
    = (Normal tt, this)
    /\ stemmer this = None
    /\ (vocabulary this <> None ->
        vocabularyStem this = Some []
        /\ (Forall (fun token => ~ In (toLowerCase token) inheritedNames)
              (wordsOf this utterance) ->
            exists result wordScores,
              getSentiment toLowerCase utterance this
              = (Normal result, this)
              /\ Result.wordScores result = Some wordScores
              /\ sumScores wordScores = Num (Result.score result))).
Proof.
  intros Hu. unfold constructor. rewrite Hu.
  match goal with
  | |- context [loadVocabulary _ _ _ ?init] => set (this0 := init)
  end.
  destruct (loadVocabulary_fields readVocabulary requireWords
              requirePunctuation this0)
    as [this [Hrun [_ [_ [Hst [_ [_ [_ [_ [Hs _]]]]]]]]]].
  subst this0. cbn [stemmer] in Hst, Hs.
  exists this. split; [exact Hrun|]. split; [exact Hst|].
  intros Hv. split.
  - rewrite Hs. destruct (vocabulary this); [reflexivity|contradiction].
  - intros _. do 2 eexists. split; [apply getSentiment_run; exact Hv|].
    split; [reflexivity|]. cbn.
    apply fold_score_sum; [exact Hst | reflexivity].
Qed.

End Constructed.

(* ------------------------------------------------------------------ *)
(** ** The further properties at work on the example analyzers *)

Ltac absent :=
  unfold isNegator, isNegationPunctuation; simpl;
  let H := fresh in intros H; apply H; reflexivity.

Ltac present :=
  unfold isNegator, isNegationPunctuation; simpl; discriminate.

(** A string that is none of the inherited names. *)
Ltac ownName :=
  let H := fresh in
  intros H; simpl in H;
  repeat (destruct H as [H|H]; [discriminate H|]); exact H.

Lemma exact_entry_scored_witness :
  let this := Example.analyzer in
  let lower := Example.toLowerCase in
  vocabulary this = Some [("good", 3%R); ("b", 2%R)]
  /\ ~ isNegator lower this "Good"
  /\ ~ isNegationPunctuation lower this "Good"
  /\ Obj.get [("good", 3%R); ("b", 2%R)] (lower "Good") = Some 3%R
  /\ Scan.score (scan lower this (["not"] ++ ["Good"]))
     = (Scan.score (scan lower this ["not"])
        + Scan.negator (scan lower this ["not"]) * 3)%R.
Proof.
  cbv zeta.
  assert (N : ~ isNegator Example.toLowerCase Example.analyzer "Good")
    by absent.
  assert (P : ~ isNegationPunctuation Example.toLowerCase Example.analyzer
                "Good") by absent.
  split; [reflexivity|]. split; [exact N|]. split; [exact P|].
  split; [reflexivity|].
  apply (exact_entry_scored Example.toLowerCase Example.analyzer ["not"]
           "Good" _ 3%R eq_refl N P eq_refl).
Defined.

Lemma unmatched_token_witness :
  let this := Example.analyzer in
  let lower := Example.toLowerCase in
  ~ isNegator lower this "goods"
  /\ ~ isNegationPunctuation lower this "goods"
  /\ Obj.get [("good", 3%R); ("b", 2%R)] (lower "goods") = None
  /\ Obj.get [("good", 3%R); ("b", 2%R)] (PropertyKey (charAt0 "goods"))
     = None
  /\ ~ In (lower "goods") inheritedNames
  /\ scan lower this (["not"] ++ ["goods"]) = scan lower this ["not"]
  /\ Scan.nrHits (scan lower this (["not"] ++ ["bx"]))
     = (Scan.nrHits (scan lower this ["not"]) + 1)%nat.
Proof.
  cbv zeta.
  assert (N : ~ isNegator Example.toLowerCase Example.analyzer "goods")
    by absent.
  assert (P : ~ isNegationPunctuation Example.toLowerCase Example.analyzer
                "goods") by absent.
  assert (N' : ~ isNegator Example.toLowerCase Example.analyzer "bx")
    by absent.
  assert (P' : ~ isNegationPunctuation Example.toLowerCase Example.analyzer
                 "bx") by absent.
  assert (I : ~ In (Example.toLowerCase "goods") inheritedNames)
    by ownName.
  assert (I' : ~ In (Example.toLowerCase "bx") inheritedNames)
    by ownName.
  split; [exact N|]. split; [exact P|]. split; [reflexivity|].
  split; [reflexivity|]. split; [exact I|]. split.
  - destruct (unmatched_token Example.toLowerCase Example.analyzer ["not"]
                "goods" _ eq_refl N P eq_refl I) as [H _].
    apply H. right. reflexivity.
  - destruct (unmatched_token Example.toLowerCase Example.analyzer ["not"]
                "bx" _ eq_refl N' P' eq_refl I') as [_ H].
    apply (H 2%R); [discriminate | reflexivity].
Defined.

Lemma numHits_counts_witness :
  vocabulary Example.analyzer <> None
  /\ exists result wordScores,
       getSentiment Example.toLowerCase (Text "not good , no") Example.analyzer
       = (Normal result, Example.analyzer)
       /\ Result.wordScores result = Some wordScores
       /\ Result.numHits result
          = (countNegators Example.toLowerCase Example.analyzer
               (wordsOf Example.analyzer (Text "not good , no"))
             + List.length wordScores)%nat.
Proof.
  split; [discriminate|].
  apply (numHits_counts Example.toLowerCase Example.analyzer). discriminate.
Defined.

Lemma score_is_sum_of_wordScores_witness :
  vocabulary Sample.plain <> None
  /\ stemmer Sample.plain = None
  /\ Forall (fun token => ~ In (Example.toLowerCase token) inheritedNames)
       ["not"; "good"; "bx"]
  /\ exists result wordScores,
       getSentiment Example.toLowerCase (Tokens ["not"; "good"; "bx"])
         Sample.plain
       = (Normal result, Sample.plain)
       /\ Result.wordScores result = Some wordScores
       /\ sumScores wordScores = Num (Result.score result).
Proof.
  assert (Hall : Forall (fun token =>
                           ~ In (Example.toLowerCase token) inheritedNames)
                    ["not"; "good"; "bx"])
    by (repeat constructor; ownName).
  split; [discriminate|]. split; [reflexivity|]. split; [exact Hall|].
  apply (score_is_sum_of_wordScores Example.toLowerCase Sample.plain
           (Tokens ["not"; "good"; "bx"]));
    [discriminate | reflexivity | exact Hall].
Defined.

Lemma utterances_compose_witness :
  let this := Example.analyzer in
  let lower := Example.toLowerCase in
  vocabulary this <> None
  /\ Forall (fun token => ~ isNegator lower this token) ["good"]
  /\ (exists result1 result2 result,
        getSentiment lower (Tokens ["good"]) this = (Normal result1, this)
        /\ getSentiment lower (Tokens ["not"; "good"]) this
           = (Normal result2, this)
        /\ getSentiment lower (Tokens (["good"] ++ ["not"; "good"])) this
           = (Normal result, this)
        /\ Result.numHits result
           = (Result.numHits result1 + Result.numHits result2)%nat)
  /\ (exists result1 result2 result,
        getSentiment lower (Tokens ["not"; ","]) this = (Normal result1, this)
        /\ getSentiment lower (Tokens ["good"]) this = (Normal result2, this)
        /\ getSentiment lower (Tokens (["not"; ","] ++ ["good"])) this
           = (Normal result, this)
        /\ Result.numHits result
           = (Result.numHits result1 + Result.numHits result2)%nat).
Proof.
  cbv zeta.
  assert (Hall : Forall (fun token => ~ isNegator Example.toLowerCase
                                        Example.analyzer token) ["good"])
    by (repeat constructor; absent).
  split; [discriminate|]. split; [exact Hall|]. split.
  - destruct (utterances_compose Example.toLowerCase Example.analyzer
                ["good"] ["not"; "good"] ltac:(discriminate)
                (or_introl Hall))
      as [r1 [r2 [r [w1 [w2 [H1 [H2 [H [Hs _]]]]]]]]].
    exists r1, r2, r. repeat split; assumption.
  - assert (Hend : exists before mark,
               ["not"; ","] = (before ++ [mark])%list
               /\ ~ isNegator Example.toLowerCase Example.analyzer mark
               /\ isNegationPunctuation Example.toLowerCase
                    Example.analyzer mark).
    { exists ["not"], ",". split; [reflexivity|].
      split; [absent | present]. }
    destruct (utterances_compose Example.toLowerCase Example.analyzer
                ["not"; ","] ["good"] ltac:(discriminate)
                (or_intror Hend))
      as [r1 [r2 [r [w1 [w2 [H1 [H2 [H [Hs _]]]]]]]]].
    exists r1, r2, r. repeat split; assumption.
Defined.

Lemma leading_negator_flips_witness :
  let this := Example.analyzer in
  let lower := Example.toLowerCase in
  vocabulary this <> None
  /\ isNegator lower this "Not"
  /\ Forall (fun token => ~ isNegator lower this token
                          /\ ~ isNegationPunctuation lower this token)
       ["good"; "bx"]
  /\ exists result result',
       getSentiment lower (Tokens ["good"; "bx"]) this = (Normal result, this)
       /\ getSentiment lower (Tokens ("Not" :: ["good"; "bx"])) this
          = (Normal result', this)
       /\ Result.score result' = (- Result.score result)%R
       /\ Result.numHits result' = S (Result.numHits result).
Proof.
  cbv zeta.
  assert (N : isNegator Example.toLowerCase Example.analyzer "Not")
    by present.
  assert (Hall : Forall (fun token =>
                           ~ isNegator Example.toLowerCase Example.analyzer
                               token
                           /\ ~ isNegationPunctuation Example.toLowerCase
                                  Example.analyzer token) ["good"; "bx"])
    by (repeat constructor; absent).
  split; [discriminate|]. split; [exact N|]. split; [exact Hall|].
  destruct (leading_negator_flips Example.toLowerCase Example.analyzer
              "Not" ["good"; "bx"] ltac:(discriminate) N Hall)
    as [r [r' [ws [H1 [H2 [Hs [Hh _]]]]]]].
  exists r, r'. repeat split; assumption.
Defined.

Lemma case_insensitive_witness :
  Forall2 (sameWord Example.toLowerCase Example.analyzer)
    ["NOT"; "Good"] ["not"; "good"]
  /\ getSentiment Example.toLowerCase (Tokens ["NOT"; "Good"])
       Example.analyzer
     = getSentiment Example.toLowerCase (Tokens ["not"; "good"])
         Example.analyzer.
Proof.
  assert (H : Forall2 (sameWord Example.toLowerCase Example.analyzer)
                ["NOT"; "Good"] ["not"; "good"]).
  { constructor; [|constructor; [|constructor]].
    - split; [reflexivity|]. right. left. present.
    - split; [reflexivity|]. right. right. right.
      exists [("good", 3%R); ("b", 2%R)], 3%R.
      split; reflexivity. }
  split; [exact H|].
  apply (case_insensitive Example.toLowerCase Example.analyzer _ _ H).
Defined.

Lemma normalize_not_finite_witness :
  (PosInf = NaN \/ PosInf = PosInf \/ PosInf = NegInf
   \/ Some (Num 15) = Some NaN)
  /\ normalize PosInf (Some (Num 15)) = NaN.
Proof.
  assert (H : PosInf = NaN \/ PosInf = PosInf \/ PosInf = NegInf
              \/ Some (Num 15) = Some NaN)
    by (right; left; reflexivity).
  split; [exact H|].
  apply (normalize_not_finite PosInf (Some (Num 15)) H).
Defined.

Lemma normalize_odd_witness :
  (0 < 15)%R
  /\ normalize (Num (- 3)) (Some (Num 15))
     = opposite (normalize (Num 3) (Some (Num 15))).
Proof.
  split; [lra|].
  apply (normalize_odd 15 3). lra.
Defined.

Lemma normalize_invalid_alpha_witness :
  (0 <= 0)%R /\ (-1 <= 0)%R
  /\ normalize (Num 0) (Some (Num 0)) = NaN
  /\ normalize (Num 0) (Some (Num (-1))) = NaN.
Proof.
  split; [lra|]. split; [lra|]. split.
  - apply (normalize_invalid_alpha 0). lra.
  - apply (normalize_invalid_alpha (-1)). lra.
Defined.

Lemma addVocabulary_edges_witness :
  dict Example.analyzer = None
  /\ addVocabulary Example.analyzer = (Normal tt, Example.analyzer)
  /\ dict Example.unloaded = Some Example.override
  /\ Example.override <> []
  /\ vocabulary Example.unloaded = None
  /\ addVocabulary Example.unloaded = (Throw "TypeError", Example.unloaded).
Proof.
  split; [reflexivity|]. split.
  - destruct (addVocabulary_edges Example.analyzer) as [H _].
    apply H. left. reflexivity.
  - split; [reflexivity|]. split; [discriminate|]. split; [reflexivity|].
    destruct (addVocabulary_edges Example.unloaded) as [_ H].
    apply (H Example.override); [reflexivity | discriminate | reflexivity].
Defined.

Lemma addVocabulary_idempotent_witness :
  dict Sample.merging = Some Example.override
  /\ vocabulary Sample.merging = Some Example.base
  /\ exists this' v',
       addVocabulary Sample.merging = (Normal tt, this')
       /\ (addVocabulary ;; addVocabulary) Sample.merging
          = (Normal tt, this')
       /\ vocabulary this' = Some v'
       /\ Obj.get v' "good" = Some 5%R
       /\ Obj.get v' "goods" = Some 1%R.
Proof.
  split; [reflexivity|]. split; [reflexivity|].
  destruct (addVocabulary_idempotent Sample.merging Example.override
              Example.base eq_refl eq_refl)
    as [this' [H1 [H2 [v' [Hv [Hover Hkeep]]]]]].
  exists this', v'. split; [exact H1|]. split; [exact H2|].
  split; [exact Hv|]. split.
  - apply Hover; [reflexivity | left; discriminate].
  - rewrite Hkeep; [reflexivity | left; reflexivity].
Defined.


Lemma stem_table_entries_witness :
  Example.readVocabulary "./languages/en/afinn_en.json" = Some Example.base
  /\ stemmer Example.unloaded = Some Example.pluralStemmer
  /\ stemmer (Sample.withDict Sample.indexOverride)
     = Some Example.pluralStemmer
  /\ (exists this' stems,
        loadVocabulary Example.readVocabulary Example.requireWords
          Example.requirePunctuation Example.unloaded
        = (Normal tt, this')
        /\ vocabularyStem this' = Some stems
        /\ Obj.get stems "good" = Some 1%R)
  /\ (exists this' v stems,
        loadVocabulary Example.readVocabulary Example.requireWords
          Example.requirePunctuation (Sample.withDict Sample.indexOverride)
        = (Normal tt, this')
        /\ vocabulary this' = Some v
        /\ Obj.keys v = ["1"; "good"; "goods"]
        /\ vocabularyStem this' = Some stems
        /\ Obj.get stems "1" = Some 7%R).
Proof.
  split; [reflexivity|]. split; [reflexivity|]. split; [reflexivity|].
  split.
  - destruct (stem_table_entries Example.readVocabulary
                Example.requireWords Example.requirePunctuation
                Example.unloaded Example.base Example.pluralStemmer
                eq_refl eq_refl)
      as [this' [v [stems [Hrun [Hv [_ [Hs [_ Hlast]]]]]]]].
    exists this', stems. split; [exact Hrun|]. split; [exact Hs|].
    rewrite example_loaded in Hrun. injection Hrun as <-.
    simpl in Hv. injection Hv as <-.
    apply (Hlast ["good"] "goods" ["bad"] "good" 1%R).
    + reflexivity.
    + reflexivity.
    + reflexivity.
    + discriminate.
    + constructor; [discriminate|constructor].
  - destruct (stem_table_entries Example.readVocabulary
                Example.requireWords Example.requirePunctuation
                (Sample.withDict Sample.indexOverride) Example.base
                Example.pluralStemmer eq_refl eq_refl)
      as [this' [v [stems [Hrun [Hv [_ [Hs [_ Hlast]]]]]]]].
    exists this', v, stems. split; [exact Hrun|]. split; [exact Hv|].
    rewrite index_loaded in Hrun. injection Hrun as <-.
    simpl in Hv. injection Hv as <-.
    split; [reflexivity|]. split; [exact Hs|].
    apply (Hlast [] "1" ["good"; "goods"] "1" 7%R).
    + reflexivity.
    + reflexivity.
    + reflexivity.
    + discriminate.
    + constructor; [discriminate|].
      constructor; [discriminate|constructor].
Defined.

Lemma loadVocabulary_reload_witness :
  exists this',
    loadVocabulary Example.readVocabulary Example.requireWords
      Example.requirePunctuation Example.unloaded
    = (Normal tt, this')
    /\ loadVocabulary Example.readVocabulary Example.requireWords
         Example.requirePunctuation this'
       = (Normal tt, this').
Proof.
  eexists. split; [apply example_loaded|].
  apply (loadVocabulary_reload Example.readVocabulary Example.requireWords
           Example.requirePunctuation Example.unloaded _ example_loaded).
Defined.

Lemma loadedFiles_flags_witness :
  Example.readVocabulary "./languages/en/afinn_en.json" <> None
  /\ In "./languages/en/afinn_en.json"
       (loadedFiles
          (snd (loadVocabulary Example.readVocabulary Example.requireWords
                  Example.requirePunctuation Example.unloaded)))
  /\ loadedFiles
       (snd (loadVocabulary (@Sample.nothing jsobject) Example.requireWords
               Example.requirePunctuation Example.unloaded))
     = loadedFiles Example.unloaded.
Proof.
  split; [discriminate|]. split.
  - destruct (loadedFiles_flags Example.readVocabulary Example.requireWords
                Example.requirePunctuation Example.unloaded) as [_ [H _]].
    apply H. discriminate.
  - destruct (loadedFiles_flags (@Sample.nothing jsobject)
                Example.requireWords Example.requirePunctuation
                Example.unloaded) as [H _].
    apply H. reflexivity.
Defined.

Lemma missing_negation_files_witness :
  @Sample.nothing (list string) "./languages/en/negations_en.json" = None
  /\ @Sample.nothing (list string)
       "./languages/en/negationPunctuations_en.json" = None
  /\ exists this',
       loadVocabulary Example.readVocabulary (@Sample.nothing (list string))
         (@Sample.nothing (list string)) Example.unloaded
       = (Normal tt, this')
       /\ negations this' = []
       /\ negationPunctuations this' = []
       /\ ~ isNegator Example.toLowerCase this' "not".
Proof.
  split; [reflexivity|]. split; [reflexivity|].
  destruct (missing_negation_files Example.toLowerCase
              Example.readVocabulary (@Sample.nothing (list string))
              (@Sample.nothing (list string)) Example.unloaded
              (Tokens ["not"; "good"]) eq_refl eq_refl)
    as [this' [Hrun [Hn [Hp [Hnone _]]]]].
  exists this'. split; [exact Hrun|]. split; [exact Hn|].
  split; [exact Hp|]. apply Hnone.
Defined.

Lemma constructor_state_witness :
  (exists this,
      constructor Example.readVocabulary Example.requireWords
        Example.requirePunctuation Sample.getTokenizer Sample.getStemmer
        (Some Sample.options) (Some Example.override) None
      = (Normal tt, this)
      /\ Settings.language (settings this) = "en"
      /\ Settings.type (settings this) = "afinn"
      /\ vocabularyFileName this = "./languages/en/afinn_en.json")
  /\ (exists this,
        constructor Example.readVocabulary Example.requireWords
          Example.requirePunctuation Sample.getTokenizer Sample.getStemmer
          None None None
        = (Normal tt, this)
        /\ Settings.language (settings this) = "en"
        /\ Settings.type (settings this) = "senticon"
        /\ vocabularyFileName this = "./languages/en/senticon_en.json"
        /\ vocabulary this = None).
Proof.
  split.
  - destruct (constructor_state Example.readVocabulary Example.requireWords
                Example.requirePunctuation Sample.getTokenizer
                Sample.getStemmer (Some Sample.options)
                (Some Example.override) None)
      as [this [Hrun [_ [_ [_ [Hgiven [_ [_ [Hname _]]]]]]]]].
    destruct (Hgiven Sample.options eq_refl) as [Hl Ht].
    exists this. split; [exact Hrun|].
    pose proof (Hl "e"%char "n" eq_refl) as El.
    pose proof (Ht "a"%char "finn" eq_refl) as Et.
    split; [exact El|]. split; [exact Et|].
    rewrite Hname, El, Et. reflexivity.
  - destruct (constructor_state Example.readVocabulary Example.requireWords
                Example.requirePunctuation Sample.getTokenizer
                Sample.getStemmer None None None)
      as [this [Hrun [_ [_ [Hen [_ [Htype [_ [Hname [Hread _]]]]]]]]]].
    pose proof (Hen (or_introl eq_refl)) as El.
    assert (Et : Settings.type (settings this) = "senticon").
    { destruct (Htype (or_introl eq_refl)) as [[_ Hl]|[Et _]];
        [|exact Et].
      rewrite El in Hl. destruct Hl as [Hl|[Hl|Hl]]; discriminate. }
    exists this. split; [exact Hrun|]. split; [exact El|].
    split; [exact Et|].
    assert (En : vocabularyFileName this
                 = "./languages/en/senticon_en.json")
      by (rewrite Hname, El, Et; reflexivity).
    split; [exact En|].
    apply Hread. rewrite En. reflexivity.
Defined.

Lemma constructor_unsupported_witness :
  @Sample.nothing jsobject "./languages/en/senticon_en.json" = None
  /\ exists this,
       constructor (@Sample.nothing jsobject) Example.requireWords
         Example.requirePunctuation Sample.getTokenizer Sample.getStemmer
         None None None
       = (Normal tt, this)
       /\ getSentiment Example.toLowerCase (Tokens ["not"; "good"]) this
          = (Normal
               {| Result.score := 0;
                  Result.numWords := 2;
                  Result.numHits := 0;
                  Result.range := None;
                  Result.comparative := Num 0;
                  Result.type := "senticon";
                  Result.language := "en";
                  Result.wordScores := None |},
             this).
Proof.
  split; [reflexivity|].
  apply (constructor_unsupported Example.toLowerCase
           (@Sample.nothing jsobject) Example.requireWords
           Example.requirePunctuation Sample.getTokenizer Sample.getStemmer
           None None None (Tokens ["not"; "good"]) eq_refl).
Defined.

Lemma constructor_without_stemmer_witness :
  Options.useStemmer Sample.options = Some false
  /\ Forall (fun token => ~ In (Example.toLowerCase token) inheritedNames)
       ["Good"; "goods"]
  /\ exists this,
       constructor Example.readVocabulary Example.requireWords
         Example.requirePunctuation Sample.getTokenizer Sample.getStemmer
         (Some Sample.options) None None
       = (Normal tt, this)
       /\ stemmer this = None
       /\ vocabulary this <> None
       /\ vocabularyStem this = Some []
       /\ exists result wordScores,
            getSentiment Example.toLowerCase (Tokens ["Good"; "goods"]) this
            = (Normal result, this)
            /\ Result.wordScores result = Some wordScores
            /\ sumScores wordScores = Num (Result.score result).
Proof.
  assert (Hall : Forall (fun token =>
                           ~ In (Example.toLowerCase token) inheritedNames)
                   ["Good"; "goods"])
    by (repeat constructor; ownName).
  split; [reflexivity|]. split; [exact Hall|].
  destruct (constructor_without_stemmer Example.toLowerCase
              Example.readVocabulary Example.requireWords
              Example.requirePunctuation Sample.getTokenizer
              Sample.getStemmer Sample.options None None
              (Tokens ["Good"; "goods"]) eq_refl)
    as [this [Hrun [Hst Hloaded]]].
  assert (Hv : vocabulary this <> None).
  { replace this
      with (snd (constructor Example.readVocabulary Example.requireWords
                   Example.requirePunctuation Sample.getTokenizer
                   Sample.getStemmer (Some Sample.options) None None))
      by (rewrite Hrun; reflexivity).
    simpl. discriminate. }
  destruct (Hloaded Hv) as [Hstems Hsum].
  exists this. split; [exact Hrun|]. split; [exact Hst|].
  split; [exact Hv|]. split; [exact Hstems|]. apply Hsum, Hall.
Defined.
